(** * ptt_crawler.py: a shallow embedding and its verified properties

    The development follows [src/ptt_crawler.py].  Python values are
    modelled as follows.

    - A Python [str] is a sequence of Unicode code points: [list N].
      Literals of the source are written through [utf8], which decodes the
      UTF-8 bytes of a Rocq string literal.
    - A [pd.DataFrame] of listings is either the frame without any column
      ([pd.DataFrame()] and [pd.DataFrame([])], lines 121 and 126) or a
      table of rows with the columns title, date, link, nrec.
    - [pd.to_numeric] is modelled cell by cell and exactly, as
      [mantissa * 10^exponent].  pandas holds a column as binary64 or
      int64, whichever fits all its cells, so this is how pandas reads a
      column of plain tokens only: sentinels, integers of at most 15
      digits, text that is no number.  The statements about scores are
      made for such columns and for thresholds of fewer than 16 digits.
    - [int] reads a run of at most 4300 digits and raises ValueError on a
      longer one; [str] of an integer is taken to succeed.
    - A parsed page is a tree of tags and strings; the HTML parser and the
      decoding of the response body are parameters of the crawler, and the
      parser is taken to accept the markup.
    - Network, disk and request log live in a [World] that the effectful
      functions thread through a state monad.  Console output and the
      passing of time ([print], [random_sleep]) leave the world unchanged.
    - A content table on disk is a list of rows, each a dictionary from
      column name to cell.  A cell that [pd.read_csv] takes for a missing
      value reads back as NaN, any other cell as the text that was
      written.  That pandas reads a column of numbers only as numbers is
      not modelled; the statements about the links already stored are made
      for links that start with http, which are read back as text.
    - A path under the data directory is formed as [os.path.join] does;
      a file name is taken to name a file that can be written.

    [visualize_recommendations] draws with matplotlib and is not
    embedded. *)

From Stdlib Require Import ZArith NArith Lia.
From Stdlib Require Import Strings.String Strings.Byte.
From stdpp Require Import base decidable option list gmap fin_maps fin_sets strings.

Local Open Scope Z_scope.

(** ** Python strings *)

Module Py.

Abbreviation str := (list N).

(** Decoding of a UTF-8 byte sequence (well-formed input only). *)
Fixpoint utf8_decode (bs : list N) : str :=
  match bs with
  | [] => []
  | b0 :: r0 =>
    if (b0 <? 128)%N then b0 :: utf8_decode r0
    else
      match r0 with
      | [] => [b0]
      | b1 :: r1 =>
        if (b0 <? 224)%N
        then ((b0 - 192) * 64 + (b1 - 128))%N :: utf8_decode r1
        else
          match r1 with
          | [] => [b0; b1]
          | b2 :: r2 =>
            if (b0 <? 240)%N
            then ((b0 - 224) * 4096 + (b1 - 128) * 64 + (b2 - 128))%N
                   :: utf8_decode r2
            else
              match r2 with
              | [] => [b0; b1; b2]
              | b3 :: r3 =>
                ((b0 - 240) * 262144 + (b1 - 128) * 4096
                 + (b2 - 128) * 64 + (b3 - 128))%N :: utf8_decode r3
              end
          end
      end
  end.

Definition utf8 (s : string) : str :=
  utf8_decode (map Byte.to_N (list_byte_of_string s)).

(** [str.isspace] for one character; [\s] of [re] is the same set. *)
Definition isspace (c : N) : bool :=
  ((9 <=? c) && (c <=? 13) || (28 <=? c) && (c <=? 32)
   || (c =? 133) || (c =? 160) || (c =? 5760)
   || (8192 <=? c) && (c <=? 8202)
   || (c =? 8232) || (c =? 8233) || (c =? 8239) || (c =? 8287)
   || (c =? 12288))%N.

(** The line boundaries of [str.splitlines]. *)
Definition is_linebreak (c : N) : bool :=
  ((10 <=? c) && (c <=? 13) || (28 <=? c) && (c <=? 30)
   || (c =? 133) || (c =? 8232) || (c =? 8233))%N.

Fixpoint lstrip (s : str) : str :=
  match s with
  | [] => []
  | c :: s' => if isspace c then lstrip s' else s
  end.

Definition rstrip (s : str) : str := rev (lstrip (rev s)).

(** [s.strip()] *)
Definition strip (s : str) : str := rstrip (lstrip s).

(** [sep.join(parts)] *)
Fixpoint join (sep : str) (parts : list str) : str :=
  match parts with
  | [] => []
  | [p] => p
  | p :: ps => p ++ sep ++ join sep ps
  end.

(** [s.splitlines()]: [cur] holds the current line, reversed. *)
Fixpoint splitlines_from (cur : str) (s : str) : list str :=
  match s with
  | [] => match cur with [] => [] | _ => [rev cur] end
  | c :: s' =>
    if is_linebreak c then
      rev cur ::
        match s' with
        | c' :: s'' =>
          if ((c =? 13) && (c' =? 10))%N then splitlines_from [] s''
          else splitlines_from [] s'
        | [] => splitlines_from [] s'
        end
    else splitlines_from (c :: cur) s'
  end.

Definition splitlines (s : str) : list str := splitlines_from [] s.

(** [s.startswith(p)] *)
Fixpoint startswith (p s : str) : bool :=
  match p, s with
  | [], _ => true
  | _ :: _, [] => false
  | a :: p', b :: s' => (a =? b)%N && startswith p' s'
  end.

(** [p in s] for strings: [p] occurs as a substring of [s]. *)
Fixpoint contains (p s : str) : bool :=
  startswith p s ||
  match s with
  | [] => false
  | _ :: s' => contains p s'
  end.

(** The first code point of each block of ten Unicode decimal digits
    (Unicode 14, the table of CPython 3.11): [str.isdecimal] and [\d]. *)
Definition decimal_blocks : list N :=
  [48; 1632; 1776; 1984; 2406; 2534; 2662; 2790; 2918; 3046; 3174; 3302;
   3430; 3558; 3664; 3792; 3872; 4160; 4240; 6112; 6160; 6470; 6608; 6784;
   6800; 6992; 7088; 7232; 7248; 42528; 43216; 43264; 43472; 43504; 43600;
   44016; 65296; 66720; 68912; 69734; 69872; 69942; 70096; 70384; 70736;
   70864; 71248; 71360; 71472; 71904; 72016; 72784; 73040; 73120; 92768;
   92864; 93008; 120782; 120792; 120802; 120812; 120822; 123200; 123632;
   125264; 130032]%N.

(** The digit a decimal character stands for. *)
Definition decimal_value (c : N) : option Z :=
  (fun b => Z.of_N (c - b)) <$>
  find (fun b => (b <=? c) && (c <? b + 10))%N decimal_blocks.

Definition isdecimal (c : N) : bool := bool_decide (is_Some (decimal_value c)).

(** The digit of an ASCII digit character, as C's [isdigit] sees it. *)
Definition ascii_digit (c : N) : option Z :=
  if ((48 <=? c) && (c <=? 57))%N then Some (Z.of_N c - 48) else None.

(** Horner evaluation of a run of digits, most significant first. *)
Definition horner (ds : list Z) : Z := foldl (fun acc d => 10 * acc + d) 0 ds.

(** The integer that a run of decimal characters stands for. *)
Definition int_of_digits (s : str) : Z :=
  horner (omap decimal_value s).

(** The decimal digits of a natural number, most significant first. *)
Fixpoint digits_fuel (fuel : nat) (n : Z) (acc : list Z) : list Z :=
  match fuel with
  | O => acc
  | S fuel' =>
    if n <? 10 then n :: acc
    else digits_fuel fuel' (n / 10) (n mod 10 :: acc)
  end.

Definition digits (n : Z) : list Z := digits_fuel (S (Z.to_nat n)) n [].

Definition digit_char (d : Z) : N := Z.to_N (48 + d).

(** [str(z)] for an integer. *)
Definition str_of_int (z : Z) : str :=
  if z <? 0 then 45%N :: map digit_char (digits (- z))
  else map digit_char (digits z).

(** [s.split()]: the maximal runs of characters that are not blank. *)
Fixpoint split_from (cur : str) (s : str) : list str :=
  match s with
  | [] => match cur with [] => [] | _ => [rev cur] end
  | c :: s' =>
    if isspace c
    then match cur with [] => split_from [] s' | _ => rev cur :: split_from [] s' end
    else split_from (c :: cur) s'
  end.

Definition split (s : str) : list str := split_from [] s.

(** Truthiness: [x or d] for an optional integer. *)
Definition or_int (x : option Z) (d : Z) : Z :=
  match x with
  | Some z => if z =? 0 then d else z
  | None => d
  end.

(** [x or d] for an optional string. *)
Definition or_str (x : option str) (d : str) : str :=
  match x with
  | Some [] | None => d
  | Some s => s
  end.

(** [x or d] for an optional dictionary. *)
Definition or_dict (x : option (gmap str str)) (d : gmap str str) : gmap str str :=
  match x with
  | Some h => if bool_decide (h = ∅) then d else h
  | None => d
  end.

End Py.
Import Py.

(** ** Configuration (lines 15-26) *)

Module CONFIG.
Definition BOARD_NAME : str := Eval vm_compute in utf8 "stock".
Definition BASE_URL : str := Eval vm_compute in utf8 "https://www.ptt.cc".
Definition BOARD_URL : str :=
  Eval vm_compute in utf8 "https://www.ptt.cc/bbs/" ++ BOARD_NAME ++ utf8 "/index.html".
Definition HEADERS : gmap str str := {[ utf8 "User-Agent" := utf8 "Mozilla/5.0" ]}.
Definition ENCODING : str := Eval vm_compute in utf8 "utf-8".
Definition DEFAULT_THRESHOLD : Z := 40.
End CONFIG.

(** ** Exceptions and results *)

Inductive exn :=
| KeyError (key : str)
| ValueError.

Inductive result (A : Type) :=
| Ok (a : A)
| Raise (e : exn).
Arguments Ok {A} a.
Arguments Raise {A} e.

(** [int(s)] for a string of decimal characters, as line 89 calls it:
    beyond [sys.int_max_str_digits] digits (4300 unless the interpreter is
    told otherwise) it raises ValueError. *)
Definition int_max_str_digits : nat := 4300.

Definition int (s : str) : result Z :=
  if (int_max_str_digits <? length s)%nat then Raise ValueError
  else Ok (int_of_digits s).

(** ** The part of pandas the crawler uses *)

Module Pandas.

(** A numeric cell: an exact decimal [mantissa * 10^exponent], or an
    infinity.  A missing value (NaN) is [None] in an [option number]. *)
Inductive number :=
| Finite (mantissa exponent : Z)
| Infinite (negative : bool).

Definition of_Z (z : Z) : number := Finite z 0.

(** [x >= t] for an integer [t]. *)
Definition number_ge (x : number) (t : Z) : bool :=
  match x with
  | Finite m e =>
    if 0 <=? e then t <=? m * 10 ^ e else t * 10 ^ (- e) <=? m
  | Infinite negative => negb negative
  end.

(** C's [isspace] on ASCII, which the tokenizer skips around a number. *)
Definition isspace_ascii (c : N) : bool :=
  ((c =? 32) || (9 <=? c) && (c <=? 13))%N.

Fixpoint skip_space (s : str) : str :=
  match s with
  | [] => []
  | c :: s' => if isspace_ascii c then skip_space s' else s
  end.

(** An optional sign: whether it is a minus, and the rest. *)
Definition take_sign (s : str) : bool * str :=
  match s with
  | c :: r =>
    if (c =? 45)%N then (true, r)
    else if (c =? 43)%N then (false, r)
    else (false, s)
  | [] => (false, s)
  end.

(** The longest run of ASCII digits at the front, and the rest. *)
Fixpoint take_digits (s : str) : list Z * str :=
  match s with
  | [] => ([], [])
  | c :: s' =>
    match ascii_digit c with
    | Some d => let '(ds, r) := take_digits s' in (d :: ds, r)
    | None => ([], s)
    end
  end.

(** Decimal text: optional blanks, sign, digits with an optional point,
    an optional exponent, optional blanks, and nothing else.  The result
    is the pair of mantissa and exponent. *)
Definition parse_decimal (s : str) : option (Z * Z) :=
  let '(negative, s1) := take_sign (skip_space s) in
  let '(int_part, s2) := take_digits s1 in
  let '(frac_part, s3) :=
    match s2 with
    | c :: r => if (c =? 46)%N then take_digits r else ([], s2)
    | [] => ([], s2)
    end in
  match int_part ++ frac_part with
  | [] => None
  | ds =>
    let m := horner ds in
    let '(ex, s4) :=
      match s3 with
      | c :: r =>
        if ((c =? 69) || (c =? 101))%N then
          let '(eneg, r1) := take_sign r in
          match take_digits r1 with
          | ([], _) => (0, s3)
          | (ed, r2) => (if eneg then - horner ed else horner ed, r2)
          end
        else (0, s3)
      | [] => (0, s3)
      end in
    match skip_space s4 with
    | [] => Some (if negative then - m else m, ex - Z.of_nat (length frac_part))
    | _ => None
    end
  end.

Definition lower_ascii (c : N) : N :=
  if ((65 <=? c) && (c <=? 90))%N then (c + 32)%N else c.

(** The spellings of infinity, whatever the case of the letters. *)
Definition parse_infinity (s : str) : option bool :=
  let l := map lower_ascii s in
  if bool_decide (l = utf8 "inf" \/ l = utf8 "+inf"
                  \/ l = utf8 "infinity" \/ l = utf8 "+infinity")
  then Some false
  else if bool_decide (l = utf8 "-inf" \/ l = utf8 "-infinity")
  then Some true
  else None.

(** One cell of [pd.to_numeric(..., errors="coerce")] on text: the number
    the text reads as, taken exactly, [None] (NaN) when it does not read as
    a number.  pandas holds the column as binary64 or int64; for a column
    of plain tokens this is the value it holds. *)
Definition to_numeric_text (s : str) : option number :=
  match parse_decimal s with
  | Some (m, e) => Some (Finite m e)
  | None => Infinite <$> parse_infinity s
  end.

(** A column of text and the operations on it, cell by cell. *)
Definition series_replace (to_replace : gmap str str) (s : list str) : list str :=
  map (fun v => default v (to_replace !! v)) s.

Definition to_numeric (s : list str) : list (option number) :=
  map to_numeric_text s.

Definition fillna (v : number) (s : list (option number)) : list number :=
  map (default v) s.

Definition series_ge (s : list number) (t : Z) : list bool :=
  map (fun x => number_ge x t) s.

(** [s.isin(values)] and [~mask] *)
Definition isin (s : list str) (values : gset str) : list bool :=
  map (fun v => bool_decide (v ∈ values)) s.

Definition invert (mask : list bool) : list bool := map negb mask.

(** [df[mask]]: the rows whose mask cell is true, in the order of [df]. *)
Fixpoint select {A} (rows : list A) (mask : list bool) : list A :=
  match rows, mask with
  | r :: rows', b :: mask' =>
    if b then r :: select rows' mask' else select rows' mask'
  | _, _ => []
  end.

End Pandas.
Import Pandas.

(** ** Listings and frames *)

Record Listing := {
  title : str;
  date : str;
  link : str;
  nrec : str;
}.

(** A frame built by [pd.DataFrame(records)] has no column at all when
    [records] is empty; otherwise it has the four columns of a listing.
    Selecting rows keeps the columns. *)
Inductive DataFrame :=
| NoColumns
| Table (rows : list Listing).

Definition DataFrame_of (records : list Listing) : DataFrame :=
  match records with
  | [] => NoColumns
  | _ => Table records
  end.

Definition len (df : DataFrame) : nat :=
  match df with
  | NoColumns => 0%nat
  | Table rows => length rows
  end.

(** [df[name]] for one of the listing columns. *)
Definition column (df : DataFrame) (name : string) (get : Listing -> str)
  : result (list str) :=
  match df with
  | NoColumns => Raise (KeyError (utf8 name))
  | Table rows => Ok (map get rows)
  end.

(** [df[mask]] *)
Definition getitem_mask (df : DataFrame) (mask : list bool) : DataFrame :=
  match df with
  | NoColumns => NoColumns
  | Table rows => Table (select rows mask)
  end.

(** ** Popularity filter (lines 129-133) *)

Definition nrec_sentinels : gmap str str :=
  {[ utf8 "爆" := utf8 "100"; utf8 "X" := utf8 "-1" ]}.

Definition process_recommendations (df : DataFrame) (threshold : option Z)
  : result DataFrame :=
  let threshold := or_int threshold CONFIG.DEFAULT_THRESHOLD in
  match column df "nrec" nrec with
  | Raise e => Raise e
  | Ok col =>
    let numeric :=
      fillna (of_Z 0) (to_numeric (series_replace nrec_sentinels col)) in
    Ok (getitem_mask df (series_ge numeric threshold))
  end.

(** The score the filter gives one raw popularity token. *)
Definition normalize (token : str) : number :=
  default (of_Z 0)
    (to_numeric_text (default token (nrec_sentinels !! token))).


(** ** The part of BeautifulSoup the crawler uses *)

Module Bs4.

(** A parsed document.  Tag and attribute names are lower case, as
    html.parser delivers them; an attribute given twice keeps its last
    value, so the attributes of a tag form a dictionary. *)
#[warnings="-register-all"]
Inductive node :=
| NavigableString (s : str)
| Special (s : str)
| Tag (name : str) (attrs : gmap str str) (contents : list node).

(** [Special] stands for the strings [get_text] leaves out: comments,
    declarations, and the text of script and style elements. *)

(** One compound selector: [name#id.class1.class2:nth-child(n)], each part
    optional. *)
Record compound := {
  sel_name : option str;
  sel_id : option str;
  sel_classes : list str;
  sel_nth_child : option nat;
}.

(** The classes of a tag: the blank-separated words of its class
    attribute. *)
Definition classes (attrs : gmap str str) : list str :=
  split (default [] (attrs !! utf8 "class")).

(** Whether the tag [name], [attrs], the [pos]-th element among the
    children of its parent (from 1), matches a compound selector. *)
Definition matches (c : compound) (pos : nat) (name : str) (attrs : gmap str str)
  : bool :=
  bool_decide (default name (sel_name c) = name)
  && match sel_id c with
     | Some i => bool_decide (attrs !! utf8 "id" = Some i)
     | None => true
     end
  && forallb (fun k => bool_decide (k ∈ classes attrs)) (sel_classes c)
  && bool_decide (default pos (sel_nth_child c) = pos).

(** [select_one] for a chain of compound selectors joined by the descendant
    combinator: the first tag, in document order, that matches the last
    compound below ancestors matching the earlier ones.  [chain] is what is
    still to be matched at this node. *)
Fixpoint select_node (chain : list compound) (pos : nat) (n : node)
  : option node :=
  match n with
  | Tag name attrs contents =>
    let below (chain' : list compound) :=
      (fix go (i : nat) (cs : list node) : option node :=
         match cs with
         | [] => None
         | (Tag _ _ _ as c) :: cs' =>
           match select_node chain' i c with
           | Some r => Some r
           | None => go (S i) cs'
           end
         | _ :: cs' => go i cs'
         end) 1%nat contents in
    match chain with
    | [] => None
    | [c] => if matches c pos name attrs then Some n else below chain
    | c :: rest =>
      if matches c pos name attrs then below rest else below chain
    end
  | _ => None
  end.

(** The top-level nodes of a document are the children of the soup. *)
Fixpoint select_nodes (chain : list compound) (i : nat) (cs : list node)
  : option node :=
  match cs with
  | [] => None
  | (Tag _ _ _ as c) :: cs' =>
    match select_node chain i c with
    | Some r => Some r
    | None => select_nodes chain (S i) cs'
    end
  | _ :: cs' => select_nodes chain i cs'
  end.

Definition select_one (chain : list compound) (soup : list node) : option node :=
  select_nodes chain 1%nat soup.

(** Everything below a node, in document order. *)
Fixpoint descendants (n : node) : list node :=
  match n with
  | Tag _ _ contents =>
    (fix go (cs : list node) : list node :=
       match cs with
       | [] => []
       | c :: cs' => c :: descendants c ++ go cs'
       end) contents
  | _ => []
  end.

Definition is_tag_named (names : list str) (n : node) : bool :=
  match n with
  | Tag name _ _ => bool_decide (name ∈ names)
  | _ => false
  end.

(** [for tag in el.find_all(names, recursive=False): tag.extract()]: the
    element without its direct children of these names. *)
Definition extract_children (names : list str) (el : node) : node :=
  match el with
  | Tag name attrs contents =>
    Tag name attrs (filter (fun c => is_tag_named names c = false) contents)
  | _ => el
  end.

(** [el.get_text(separator=sep)] *)
Definition get_text (sep : str) (el : node) : str :=
  join sep
    (omap (fun n => match n with NavigableString s => Some s | _ => None end)
       (descendants el)).

(** [el.find_all(name, attr=True)]: the descendants with this name that
    carry the attribute. *)
Definition has_name_attr (name attr : str) (n : node) : bool :=
  match n with
  | Tag nm attrs _ => bool_decide (nm = name) && bool_decide (is_Some (attrs !! attr))
  | _ => false
  end.

Definition find_all_with (name attr : str) (el : node) : list node :=
  filter (fun n => has_name_attr name attr n = true) (descendants el).

(** [tag[attr]] *)
Definition getitem (n : node) (attr : str) : result str :=
  match n with
  | Tag _ attrs _ =>
    match attrs !! attr with
    | Some v => Ok v
    | None => Raise (KeyError attr)
    end
  | _ => Raise (KeyError attr)
  end.

End Bs4.
Import Bs4.

(** ** Regular expressions of the source *)

Module Re.

(** The longest run of decimal characters at the front, and the rest. *)
Fixpoint span_decimal (s : str) : str * str :=
  match s with
  | [] => ([], [])
  | c :: s' =>
    if isdecimal c then let '(ds, r) := span_decimal s' in (c :: ds, r)
    else ([], s)
  end.

(** A match of [index(\d+)\.html] at the front of [s]: group 1. *)
Definition match_index_here (s : str) : option str :=
  if startswith (utf8 "index") s then
    match span_decimal (drop 5 s) with
    | ([], _) => None
    | (ds, r) => if startswith (utf8 ".html") r then Some ds else None
    end
  else None.

(** [re.search(r"index(\d+)\.html", s)]: group 1 of the leftmost match. *)
Fixpoint search_index (s : str) : option str :=
  match match_index_here s with
  | Some ds => Some ds
  | None =>
    match s with
    | [] => None
    | _ :: s' => search_index s'
    end
  end.

(** [re.sub(r"^.*?" + marker + r"[:,：]\s*", "", line)]: the text after the
    first marker that a colon, a comma or a full-width colon follows, and
    after the blanks behind it; the line itself when there is no such
    place on its first physical line. *)
Definition marker_here (marker s : str) : option str :=
  if startswith marker s then
    match drop (length marker) s with
    | c :: r =>
      if ((c =? 58) || (c =? 44) || (c =? 65306))%N then Some (lstrip r)
      else None
    | [] => None
    end
  else None.

Fixpoint cut_marker (marker s : str) : option str :=
  match marker_here marker s with
  | Some r => Some r
  | None =>
    match s with
    | [] => None
    | c :: s' => if (c =? 10)%N then None else cut_marker marker s'
    end
  end.

Definition sub_marker (marker line : str) : str :=
  default line (cut_marker marker line).

End Re.
Import Re.

(** ** The world: network, disk, request log *)

(** A response of [requests]: [text] decodes the body under the encoding
    the response carries at that time. *)
Record Response := {
  status_code : Z;
  encoding : option str;
  body : list N;
}.

(** [Response.ok], which is also the truth value of a response. *)
Definition ok (r : Response) : bool :=
  negb ((400 <=? status_code r) && (status_code r <? 600)).

(** What [requests.get] does: it raises, or it returns a response. *)
Inductive outcome :=
| Raises (err : str)
| Returns (r : Response).

(** A row of a table on disk, and the dictionary [safe_write_csv] is given:
    column name to cell.  A cell that is missing reads as NaN. *)
Abbreviation Row := (gmap string str).

(** A file at the place of a content table. *)
Inductive file :=
| Csv (rows : list Row)
| Unreadable (rows : list Row).

(** [Csv rows] is a table (possibly without any row yet, or empty)
    that [pd.read_csv] reads and that has a link column.  [Unreadable]
    is a file on which [pd.read_csv(...)["link"]] raises; the rows are those
    appended to it, which leave it as unreadable as it was. *)

Record World := {
  http : str -> gmap str str -> outcome;
  requested : list str;
  files : gmap str file;
  dumps : gmap str DataFrame;
  write_errors : list bool;
  data_dir : str;
}.

(** [http] is the network: the outcome of a GET of a URL with headers.
    [requested] lists the URLs requested so far, oldest first.  [files]
    holds the content tables by path, [dumps] the listing dumps written by
    [to_csv].  [write_errors] says, for the coming calls that append to a
    file, whether the operating system refuses (true); once the list is
    used up no call is refused. *)


Definition set_requested (l : list str) (w : World) : World :=
  {| http := http w; requested := l; files := files w;
     dumps := dumps w; write_errors := write_errors w; data_dir := data_dir w |}.

Definition set_files (f : gmap str file) (w : World) : World :=
  {| http := http w; requested := requested w; files := f;
     dumps := dumps w; write_errors := write_errors w; data_dir := data_dir w |}.

Definition set_dumps (d : gmap str DataFrame) (w : World) : World :=
  {| http := http w; requested := requested w; files := files w;
     dumps := d; write_errors := write_errors w; data_dir := data_dir w |}.

Definition set_write_errors (l : list bool) (w : World) : World :=
  {| http := http w; requested := requested w; files := files w;
     dumps := dumps w; write_errors := l; data_dir := data_dir w |}.

(** The state monad over the world. *)
Definition M (A : Type) : Type := World -> A * World.

#[global] Instance M_ret : MRet M := fun A a w => (a, w).
#[global] Instance M_bind : MBind M :=
  fun A B f c w => let '(a, w') := c w in f a w'.

Definition exec {A} (c : M A) (w : World) : World := snd (c w).
Definition eval {A} (c : M A) (w : World) : A := fst (c w).

(** [requests.get(url, headers=headers)] *)
Definition requests_get (url : str) (headers : gmap str str) : M outcome :=
  fun w => (http w url headers, set_requested (requested w ++ [url]) w).

(** ** Utility functions (lines 35-74) *)

Definition safe_request (url : str) (headers : option (gmap str str))
  : M (option Response) :=
  let headers := or_dict headers CONFIG.HEADERS in
  res ← requests_get url headers;
  match res with
  | Returns r =>
    mret (Some {| status_code := status_code r;
                  encoding := Some CONFIG.ENCODING;
                  body := body r |})
  | Raises err => mret None
  end.

(** [if not res]: the response, when there is one and it is true. *)
Definition truthy (res : option Response) : option Response :=
  match res with
  | Some r => if ok r then Some r else None
  | None => None
  end.

Definition random_sleep : M unit := mret ().

(** What appending one row does to the file at a path. *)
Definition append_row (f : option file) (row : Row) : file :=
  match f with
  | None => Csv [row]
  | Some (Csv rows) => Csv (rows ++ [row])
  | Some (Unreadable rows) => Unreadable (rows ++ [row])
  end.

(** [safe_write_csv(data, filename, fieldnames=...)] for one row, in the
    default mode "a". *)
Definition safe_write_csv (data : Row) (filename : str) : M bool :=
  fun w =>
    match write_errors w with
    | true :: rest => (false, set_write_errors rest w)
    | rest =>
      (true,
       set_write_errors (tail rest)
         (set_files (<[filename := append_row (files w !! filename) data]> (files w)) w))
    end.

(** [os.path.join(a, b)] on POSIX: an absolute [b] stands alone;
    otherwise one separator comes between [a] and [b] unless [a] is empty
    or ends with one. *)
Definition os_path_join (a b : str) : str :=
  if startswith (utf8 "/") b then b
  else
    match last a with
    | None => b
    | Some c => if (c =? 47)%N then a ++ b else a ++ utf8 "/" ++ b
    end.

Definition get_data_path (filename : str) : M str :=
  fun w => (os_path_join (data_dir w) filename, w).

(** ** The crawler *)

(** The dictionary [get_structured_content] returns: each key is present
    or not, and [{}] has none. *)
Record Structured := {
  s_title : option str;
  s_source : option str;
  s_urls : option (list str);
  s_content : option str;
}.

Definition empty_dict : Structured :=
  {| s_title := None; s_source := None; s_urls := None; s_content := None |}.

Definition TITLE : str := Eval vm_compute in utf8 "標題".
Definition AUTHOR : str := Eval vm_compute in utf8 "作者".
Definition BOARD : str := Eval vm_compute in utf8 "看板".
Definition TIME : str := Eval vm_compute in utf8 "時間".
Definition NEWLINE : str := [10%N].

(** [div.btn-group-paging a.btn.wide:nth-child(2)] *)
Definition paging_selector : list compound :=
  [ {| sel_name := Some (utf8 "div"); sel_id := None;
       sel_classes := [utf8 "btn-group-paging"]; sel_nth_child := None |};
    {| sel_name := Some (utf8 "a"); sel_id := None;
       sel_classes := [utf8 "btn"; utf8 "wide"]; sel_nth_child := Some 2%nat |} ].

(** [div#main-content] *)
Definition main_selector : list compound :=
  [ {| sel_name := Some (utf8 "div"); sel_id := Some (utf8 "main-content");
       sel_classes := []; sel_nth_child := None |} ].

(** The body of the [while] loop of lines 183-191: one line classified. *)
Definition classify_line (st : str * str * list str) (line : str)
  : str * str * list str :=
  let '(title, source, body_lines) := st in
  if contains TITLE line then (strip (sub_marker TITLE line), source, body_lines)
  else if contains AUTHOR line then (title, strip (sub_marker AUTHOR line), body_lines)
  else (title, source, body_lines ++ [line]).

(** The body of the [for] loop of lines 194-199. *)
Definition clean_step (st : bool * list str) (line : str) : bool * list str :=
  let '(content_started, clean_content) := st in
  if negb content_started then
    if contains BOARD line || contains TIME line then st
    else (true, clean_content ++ [line])
  else (content_started, clean_content ++ [line]).

Definition clean_lines (body_lines : list str) : list str :=
  snd (foldl clean_step (false, []) body_lines).

(** The lines of the text of the content region (lines 176-177). *)
Definition lines_of (main : node) : list str :=
  let text := strip (get_text NEWLINE main) in
  strip <$> filter (fun ln => strip ln ≠ []) (splitlines text).

(** [[a["href"] for a in main.find_all("a", href=True)]] (line 178) *)
Definition hrefs (main : node) : list str :=
  omap (fun a => match getitem a (utf8 "href") with
                 | Ok v => Some v
                 | Raise _ => None
                 end)
    (find_all_with (utf8 "a") (utf8 "href") main).

(** The dictionary of lines 225-233, written as one row. *)
Definition make_record (row : Listing) (structured : Structured) : Row :=
  {[ "title"%string := title row;
     "date"%string := date row;
     "link"%string := link row;
     "nrec"%string := nrec row;
     "source"%string := default [] (s_source structured);
     "content"%string := default [] (s_content structured);
     "urls"%string := join (utf8 "|") (default [] (s_urls structured)) ]}.

(** [for x in l: f(x)] *)
Fixpoint for_each {A} (f : A -> M unit) (l : list A) : M unit :=
  match l with
  | [] => mret ()
  | x :: l' => f x ;; for_each f l'
  end.

(** [DataFrame.to_csv(path, ...)]: the dump at [path] is replaced. *)
Definition to_csv (df : DataFrame) (path : str) : M unit :=
  fun w => ((), set_dumps (<[path := df]> (dumps w)) w).

(** [os.path.exists(path)] *)
Definition path_exists (path : str) : M bool :=
  fun w => (bool_decide (is_Some (files w !! path)), w).

(** The cells that [pd.read_csv] takes for a missing value. *)
Definition na_values : list str :=
  utf8 <$> [""; "#N/A"; "#N/A N/A"; "#NA"; "-1.#IND"; "-1.#QNAN"; "-NaN"; "-nan";
            "1.#IND"; "1.#QNAN"; "<NA>"; "N/A"; "NA"; "NULL"; "NaN"; "None";
            "n/a"; "nan"; "null"]%string.

(** A cell of a column of text as [pd.read_csv] reads it back: a missing
    value (NaN) for the cells above, the text that was written otherwise. *)
Definition read_cell (c : str) : option str :=
  if bool_decide (c ∈ na_values) then None else Some c.

(** [pd.read_csv(path)["link"]]: the link cells as they are read back, or
    [None] when either step raises.  The column is taken to be one of
    text, as it is when it holds a link that starts with http. *)
Definition read_link_column (path : str) : M (option (list (option str))) :=
  fun w =>
    (match files w !! path with
     | Some (Csv rows) =>
       Some ((fun row : Row => row !! "link"%string ≫= read_cell) <$> rows)
     | _ => None
     end, w).

(** [Series.dropna()] *)
Definition dropna (s : list (option str)) : list str := omap id s.

Section Crawler.

(** The libraries behind [Response.text] and [BeautifulSoup(text,
    "html.parser")]: bytes to text under an encoding, text to document. *)
Variable decode : option str -> list N -> str.
Variable html_parser : str -> list node.

Definition text (r : Response) : str := decode (encoding r) (body r).
Definition BeautifulSoup (markup : str) : list node := html_parser markup.

(** Lines 80-90. *)
Definition get_latest_index (board_url : option str) : M (result (option Z)) :=
  let board_url := or_str board_url CONFIG.BOARD_URL in
  res ← safe_request board_url None;
  match truthy res with
  | None => mret (Ok None)
  | Some res =>
    let soup := BeautifulSoup (text res) in
    match select_one paging_selector soup with
    | None => mret (Ok None)
    | Some prev =>
      match getitem prev (utf8 "href") with
      | Raise e => mret (Raise e)
      | Ok href =>
        match search_index href with
        | Some group1 =>
          match int group1 with
          | Raise e => mret (Raise e)
          | Ok k => mret (Ok (Some (k + 1)))
          end
        | None => mret (Ok None)
        end
      end
    end
  end.

(** Lines 136-145. *)
Definition process_and_save_data (df : DataFrame) (threshold : option Z)
    (filename : option str) : M (result DataFrame) :=
  let threshold := or_int threshold CONFIG.DEFAULT_THRESHOLD in
  let filename :=
    match filename with
    | None => CONFIG.BOARD_NAME ++ utf8 "_above_" ++ str_of_int threshold
              ++ utf8 "_rec.csv"
    | Some f => f
    end in
  match process_recommendations df (Some threshold) with
  | Raise e => mret (Raise e)
  | Ok filtered_df =>
    output_path ← get_data_path filename;
    to_csv filtered_df output_path ;;
    mret (Ok filtered_df)
  end.

(** Lines 165-205. *)
Definition get_structured_content (url : str) : M Structured :=
  res ← safe_request url None;
  match truthy res with
  | None => mret empty_dict
  | Some res =>
    let soup := BeautifulSoup (text res) in
    match select_one main_selector soup with
    | None => mret empty_dict
    | Some main =>
      let main := extract_children [utf8 "div"; utf8 "span"] main in
      let lines := lines_of main in
      let urls := hrefs main in
      let '(title, source, body_lines) := foldl classify_line ([], [], []) lines in
      let clean_content := clean_lines body_lines in
      mret {| s_title := Some title;
              s_source := Some source;
              s_urls := Some urls;
              s_content := Some (strip (join NEWLINE clean_content)) |}
    end
  end.

(** Lines 212-219: the links the table on disk already holds. *)
Definition load_existing_links (output_file : str) : M (gset str) :=
  there ← path_exists output_file;
  if (there : bool) then
    col ← read_link_column output_file;
    match col with
    | Some cells => mret (list_to_set (dropna cells))
    | None => mret ∅
    end
  else mret ∅.

(** Lines 224-235: the body of the loop over the rows to crawl. *)
Definition crawl_row (output_file : str) (row : Listing) : M unit :=
  structured ← get_structured_content (link row);
  let record := make_record row structured in
  safe_write_csv record output_file ;;
  random_sleep.

(** The rows of [filtered_data] whose link is not among [existing_links]
    (line 220). *)
Definition rows_to_crawl (filtered_data : DataFrame) (existing_links : gset str)
  : result DataFrame :=
  match column filtered_data "link" link with
  | Raise e => Raise e
  | Ok links => Ok (getitem_mask filtered_data (invert (isin links existing_links)))
  end.

Definition iterrows (df : DataFrame) : list Listing :=
  match df with
  | NoColumns => []
  | Table rows => rows
  end.

(** Lines 208-236. *)
Definition crawl_ptt_post_content (filtered_data : DataFrame)
    (output_file : option str) : M (result unit) :=
  output_file ←
    match output_file with
    | None => get_data_path (CONFIG.BOARD_NAME ++ utf8 "_content.csv")
    | Some f => mret f
    end;
  existing_links ← load_existing_links output_file;
  match rows_to_crawl filtered_data existing_links with
  | Raise e => mret (Raise e)
  | Ok to_crawl =>
    for_each (crawl_row output_file) (iterrows to_crawl) ;;
    mret (Ok ())
  end.

End Crawler.

(** ** Vocabulary of the statements *)

(** The integer a number is, when it is one. *)
Definition number_is (x : number) (z : Z) : Prop :=
  match x with
  | Finite m e => if 0 <=? e then m * 10 ^ e = z else m = z * 10 ^ (- e)
  | Infinite _ => False
  end.

Definition is_digit (d : Z) : Prop := 0 <= d <= 9.

Definition no_ascii_digit (s : str) : Prop :=
  Forall (fun c => ascii_digit c = None) s.

Definition listing_of_nrec (token : str) : Listing :=
  {| title := []; date := []; link := []; nrec := token |}.

(** A tag written with literals, for the examples. *)
Definition tag (name : string) (attrs : list (string * string))
    (contents : list node) : node :=
  Tag (utf8 name) (list_to_map ((fun p => (utf8 p.1, utf8 p.2)) <$> attrs)) contents.

(** A world in which every request has the same outcome. *)
Definition world_of (out : outcome) : World :=
  {| http := fun _ _ => out; requested := []; files := ∅; dumps := ∅;
     write_errors := []; data_dir := utf8 "/data/stock" |}.

Definition response (status : Z) : outcome :=
  Returns {| status_code := status; encoding := None; body := [] |}.

(** What [safe_request] hands over when the network returns [r]. *)
Definition received (r : Response) : Response :=
  {| status_code := status_code r;
     encoding := Some CONFIG.ENCODING;
     body := body r |}.

(** The document a caller of [safe_request] goes on to parse: none when the
    request raised or the response is false. *)
Definition fetched_page (decode : option str -> list N -> str)
    (html_parser : str -> list node) (url : str) (w : World) : option (list node) :=
  (fun r => BeautifulSoup html_parser (text decode r))
    <$> truthy (eval (safe_request url None) w).

(** No match of [index(\d+)\.html] starts inside [pre] in [pre ++ rest]. *)
Fixpoint no_match_inside (pre rest : str) : bool :=
  match pre with
  | [] => true
  | _ :: pre' =>
    bool_decide (match_index_here (pre ++ rest) = None) && no_match_inside pre' rest
  end.

(** The paging controls of an index page of the board: oldest, previous,
    next, newest.  [prev] holds the attributes of the second anchor besides
    its classes. *)
Definition index_page (prev : list (string * string)) : list node :=
  [tag "html" [] [tag "body" [] [
     tag "div" [("class", "btn-group btn-group-paging")] [
       tag "a" [("class", "btn wide"); ("href", "/bbs/stock/index1.html")]
         [NavigableString (utf8 "oldest")];
       tag "a" (("class", "btn wide") :: prev)
         [NavigableString (utf8 "previous")];
       tag "a" [("class", "btn wide disabled")]
         [NavigableString (utf8 "next")];
       tag "a" [("class", "btn wide"); ("href", "/bbs/stock/index.html")]
         [NavigableString (utf8 "newest")]]]]]%string.

(** A line that carries the board or the time marker. *)
Definition has_marker (line : str) : bool :=
  contains BOARD line || contains TIME line.

(** The content region as the extractor reads it: without its direct
    [div] and [span] children. *)
Definition stripped_region (main : node) : node :=
  extract_children [utf8 "div"; utf8 "span"] main.

(** The provisional body lines: the lines of the region that the first
    pass takes neither for the title nor for the author. *)
Definition provisional_body (main : node) : list str :=
  (foldl classify_line ([], [], []) (lines_of (stripped_region main))).2.

(** Text that neither starts nor ends with a blank. *)
Definition starts_solid (s : str) : Prop :=
  match s with
  | [] => True
  | c :: _ => isspace c = false
  end.

Definition solid (s : str) : Prop :=
  s <> [] /\ starts_solid s /\ starts_solid (rev s).

(** The link target of a node: the [href] of an anchor that has one. *)
Definition link_target (n : node) : option str :=
  match n with
  | Tag name attrs _ =>
    if bool_decide (name = utf8 "a") then attrs !! utf8 "href" else None
  | _ => None
  end.

(** A post page whose content region has the given children. *)
Definition post_page (contents : list node) : list node :=
  [tag "html" [] [tag "body" [] [tag "div" [("id", "main-content")] contents]]]%string.

Definition text_node (s : string) : node := NavigableString (utf8 s).

Definition anchor (href : string) : node :=
  tag "a" [("href", href)]%string [text_node href].

(** A post with two header lines and three lines of content. *)
Definition sample_post : list node :=
  [text_node "看板 Stock"; text_node "時間 Mon Jan  1 12:00:00 2024";
   text_node "first line"; text_node "second 看板 line"; text_node "third line"].

(** A post with three anchors: one in the text, one in a decoration span
    and one in a comment block, both directly under the region. *)
Definition linked_post : list node :=
  [text_node "see"; anchor "https://example.org/a";
   tag "span" [("class", "f2")] [text_node "※ 文章網址: "; anchor "https://www.ptt.cc/bbs/stock/M.1.html"];
   tag "div" [("class", "push")] [tag "span" [("class", "push-content")] [anchor "https://example.org/a"]]]%string.

(** The path of the content table a call of [crawl_ptt_post_content]
    works on. *)
Definition output_path (output_file : option str) (w : World) : str :=
  match output_file with
  | None => os_path_join (data_dir w) (CONFIG.BOARD_NAME ++ utf8 "_content.csv")
  | Some f => f
  end.

(** The rows of the file at a path. *)
Definition table_rows (path : str) (w : World) : list Row :=
  match files w !! path with
  | Some (Csv rows) | Some (Unreadable rows) => rows
  | None => []
  end.

(** The file at a path, if there is one, is a table that can be read. *)
Definition readable (path : str) (w : World) : Prop :=
  match files w !! path with
  | Some (Unreadable _) => False
  | _ => True
  end.


(** The links of the rows of a table, as they are read back. *)
Definition links_of (rows : list Row) : list str :=
  omap (fun row : Row => row !! "link"%string ≫= read_cell) rows.

(** The row written for a listing whose post could not be extracted. *)
Definition bare_record (row : Listing) : Row := make_record row empty_dict.

(** A listing with a link of the board. *)
Definition listing_at (href : string) (token : string) : Listing :=
  {| title := utf8 "post"; date := utf8 "1/01";
     link := CONFIG.BASE_URL ++ utf8 href; nrec := utf8 token |}.

(** A listing as the scraper builds it: the link starts with BASE_URL, and
    title, date and popularity token have no blanks around them. *)
Definition well_formed (r : Listing) : Prop :=
  startswith CONFIG.BASE_URL (link r) = true
  /\ strip (title r) = title r
  /\ strip (date r) = date r
  /\ strip (nrec r) = nrec r.

(** *** Plain tokens and the score of the specification *)

(** An optional minus sign and then ASCII digits, at least one. *)
Definition unsigned_part (tok : str) : str :=
  match tok with
  | c :: r => if (c =? 45)%N then r else tok
  | [] => tok
  end.

Definition is_ascii_digit (c : N) : bool := ((48 <=? c) && (c <=? 57))%N.

Definition int_text (tok : str) : bool :=
  (0 <? length (unsigned_part tok))%nat && forallb is_ascii_digit (unsigned_part tok).

(** Integer text of at most 15 digits: binary64 and int64 both hold its
    value exactly. *)
Definition small_int_text (tok : str) : bool :=
  int_text tok && (length (unsigned_part tok) <=? 15)%nat.

(** A character with which no number starts: no blank, sign, point or
    decimal digit, and not the first letter of inf or nan. *)
Definition starts_no_number (c : N) : bool :=
  negb (isspace c || isdecimal c
        || (c =? 43) || (c =? 45) || (c =? 46)
        || (c =? 105) || (c =? 73) || (c =? 110) || (c =? 78))%N.

(** Text that is no number whatever the reader: it is empty, or starts
    with a character no number starts with, or has no decimal digit and
    nowhere the letters inf, in either case. *)
Definition not_numeric (tok : str) : bool :=
  match tok with
  | [] => true
  | c :: _ =>
    starts_no_number c
    || forallb (fun c => negb (isdecimal c)) tok
       && negb (contains (utf8 "inf") (map lower_ascii tok))
  end.

(** The tokens whose reading by pandas depends neither on rounding nor on
    the rest of the column. *)
Definition plain_token (tok : str) : bool :=
  bool_decide (tok = utf8 "爆") || bool_decide (tok = utf8 "X")
  || small_int_text tok || not_numeric tok.

(** An integer of fewer than 16 digits. *)
Definition safe_int (z : Z) : bool := (- 10 ^ 15 <? z) && (z <? 10 ^ 15).

(** The score in the words of the specification: the maximum sentinel
    scores 100, the controversial sentinel -1, numeric text its integer
    value, anything else 0. *)
Definition spec_score (tok : str) : Z :=
  if bool_decide (tok = utf8 "爆") then 100
  else if bool_decide (tok = utf8 "X") then -1
  else if int_text tok then
    match tok with
    | c :: r => if (c =? 45)%N then - int_of_digits r else int_of_digits tok
    | [] => 0
    end
  else 0.

(** A link that the content table reads back as the text it was written
    as: it starts with http, as the links of the scraper do. *)
Definition text_link (s : str) : bool := startswith (utf8 "http") s.

(** ** The listing scraper and the orchestrator (lines 93-126, 241-248) *)

(** [soup.select(c)] for one compound selector without [:nth-child]: every
    tag of the document that matches, in document order. *)
Definition matches_tag (c : compound) (n : node) : bool :=
  match n with
  | Tag name attrs _ => matches c 1%nat name attrs
  | _ => false
  end.

Definition select_all (c : compound) (soup : list node) : list node :=
  filter (fun n => matches_tag c n = true)
    (flat_map (fun n => n :: descendants n) soup).

(** [el.select_one(c)]: the first tag below [el] that matches. *)
Definition select_one_below (c : compound) (el : node) : option node :=
  head (filter (fun n => matches_tag c n = true) (descendants el)).

(** [el.select_one("p > c")]: the first tag below [el], in document order,
    that matches [c] and whose parent matches [p]; the parent may be [el]
    itself. *)
Fixpoint select_child (p c : compound) (el : node) : option node :=
  match el with
  | Tag name attrs contents =>
    let parent_ok := matches p 1%nat name attrs in
    (fix go (cs : list node) : option node :=
       match cs with
       | [] => None
       | x :: cs' =>
         if parent_ok && matches_tag c x then Some x
         else
           match select_child p c x with
           | Some r => Some r
           | None => go cs'
           end
       end) contents
  | _ => None
  end.

(** A compound selector [name.class]. *)
Definition name_class (name class : string) : compound :=
  {| sel_name := Some (utf8 name); sel_id := None;
     sel_classes := [utf8 class]; sel_nth_child := None |}.

Definition name_only (name : string) : compound :=
  {| sel_name := Some (utf8 name); sel_id := None;
     sel_classes := []; sel_nth_child := None |}.

(** [tag.text] *)
Definition text_of (el : node) : str := get_text [] el.

(** Lines 103-112: the record of one entry, [None] when the entry has no
    title anchor or no date. *)
Definition entry_record (div : node) : result (option Listing) :=
  let title_tag := select_child (name_class "div" "title") (name_only "a") div in
  let date_tag := select_child (name_class "div" "meta") (name_class "div" "date") div in
  let nrec_tag := select_one_below (name_class "div" "nrec") div in
  match title_tag, date_tag with
  | Some title_tag, Some date_tag =>
    match getitem title_tag (utf8 "href") with
    | Raise e => Raise e
    | Ok href =>
      Ok (Some {| title := strip (text_of title_tag);
                  date := strip (text_of date_tag);
                  link := CONFIG.BASE_URL ++ href;
                  nrec := match nrec_tag with
                          | Some nrec_tag => strip (text_of nrec_tag)
                          | None => utf8 "0"
                          end |})
    end
  | _, _ => Ok None
  end.

(** Lines 101-113: the loop over the entries of a page. *)
Fixpoint entry_records (divs : list node) (records : list Listing)
  : result (list Listing) :=
  match divs with
  | [] => Ok records
  | div :: divs' =>
    match entry_record div with
    | Raise e => Raise e
    | Ok (Some record) => entry_records divs' (records ++ [record])
    | Ok None => entry_records divs' records
    end
  end.

(** The address of an index page (line 95). *)
Definition page_url (index : Z) : str :=
  CONFIG.BASE_URL ++ utf8 "/bbs/" ++ CONFIG.BOARD_NAME ++ utf8 "/index"
  ++ str_of_int index ++ utf8 ".html".

(** [range(start, start - n, -1)] *)
Definition range_down (start n : Z) : list Z :=
  (fun i => start - Z.of_nat i) <$> seq 0 (Z.to_nat n).

Section Scraper.

Variable decode : option str -> list N -> str.
Variable html_parser : str -> list node.

(** Lines 93-113. *)
Definition crawl_page (index : Z) : M (result (list Listing)) :=
  let url := page_url index in
  res ← safe_request url None;
  match truthy res with
  | None => mret (Ok [])
  | Some res =>
    let soup := BeautifulSoup html_parser (text decode res) in
    mret (entry_records (select_all (name_class "div" "r-ent") soup) [])
  end.

(** Lines 123-125: the loop over the pages. *)
Fixpoint crawl_pages (pages : list Z) (all_articles : list Listing)
  : M (result (list Listing)) :=
  match pages with
  | [] => mret (Ok all_articles)
  | page_index :: pages' =>
    records ← crawl_page page_index;
    match records with
    | Raise e => mret (Raise e)
    | Ok records =>
      random_sleep ;;
      crawl_pages pages' (all_articles ++ records)
    end
  end.

(** Lines 116-126. *)
Definition crawl_posts (num_pages : Z) : M (result DataFrame) :=
  latest_index ← get_latest_index decode html_parser None;
  match latest_index with
  | Raise e => mret (Raise e)
  | Ok None => mret (Ok NoColumns)
  | Ok (Some latest_index) =>
    all_articles ← crawl_pages (range_down latest_index num_pages) [];
    match all_articles with
    | Raise e => mret (Raise e)
    | Ok all_articles => mret (Ok (DataFrame_of all_articles))
    end
  end.

(** Lines 241-248: the script. *)
Definition main : M (result unit) :=
  data ← crawl_posts 10;
  match data with
  | Raise e => mret (Raise e)
  | Ok data =>
    let raw_file := CONFIG.BOARD_NAME ++ utf8 "_raw.csv" in
    raw_path ← get_data_path raw_file;
    to_csv data raw_path ;;
    filtered ← process_and_save_data data None None;
    match filtered with
    | Raise e => mret (Raise e)
    | Ok filtered => crawl_ptt_post_content decode html_parser filtered None
    end
  end.

End Scraper.

(** An entry of an index page, as the board writes it. *)
Definition entry (token : option string) (href title day : string) : node :=
  tag "div" [("class", "r-ent")]
    [tag "div" [("class", "nrec")]
       match token with
       | Some t => [tag "span" [("class", "hl f3")] [text_node t]]
       | None => []
       end;
     tag "div" [("class", "title")]
       [text_node " "; tag "a" [("href", href)] [text_node title]; text_node " "];
     tag "div" [("class", "meta")]
       [tag "div" [("class", "author")] [text_node "someone"];
        tag "div" [("class", "date")] [text_node day]]]%string.

(** An entry of a deleted post: no title anchor. *)
Definition deleted_entry : node :=
  tag "div" [("class", "r-ent")]
    [tag "div" [("class", "nrec")] [];
     tag "div" [("class", "title")] [text_node " (deleted) "];
     tag "div" [("class", "meta")]
       [tag "div" [("class", "date")] [text_node " 1/01"]]]%string.

(** An index page with the paging controls and three entries. *)
Definition listing_page : list node :=
  [tag "html" [] [tag "body" [] [
     tag "div" [("class", "btn-group btn-group-paging")] [
       tag "a" [("class", "btn wide"); ("href", "/bbs/stock/index1.html")]
         [text_node "oldest"];
       tag "a" [("class", "btn wide"); ("href", "/bbs/stock/index7.html")]
         [text_node "previous"]];
     entry (Some "爆") "/bbs/stock/M.1.html" "first" " 1/01";
     deleted_entry;
     entry None "/bbs/stock/M.2.html" "second" " 1/02";
     entry (Some "55") "/bbs/stock/M.3.html" "third" " 1/02"]]]%string.

(** An index page on which the title anchor of the second entry carries no
    link target. *)
Definition broken_page : list node :=
  [tag "html" [] [tag "body" [] [
     tag "div" [("class", "btn-group btn-group-paging")] [
       tag "a" [("class", "btn wide"); ("href", "/bbs/stock/index1.html")]
         [text_node "oldest"];
       tag "a" [("class", "btn wide"); ("href", "/bbs/stock/index7.html")]
         [text_node "previous"]];
     entry (Some "3") "/bbs/stock/M.1.html" "first" " 1/01";
     tag "div" [("class", "r-ent")]
       [tag "div" [("class", "title")] [tag "a" [] [text_node "no target"]];
        tag "div" [("class", "meta")]
          [tag "div" [("class", "date")] [text_node " 1/01"]]]]]]%string.

(** The rows whose append goes through when the coming appends are refused
    as [errors] says. *)
Fixpoint accepted {A} (errors : list bool) (rows : list A) : list A :=
  match rows with
  | [] => []
  | r :: rows' =>
    match errors with
    | true :: errors' => accepted errors' rows'
    | _ => r :: accepted (tail errors) rows'
    end
  end.

(** The paths of the listing dumps: the raw one of the script, and the one
    [process_and_save_data] names after its threshold. *)
Definition raw_path (w : World) : str :=
  os_path_join (data_dir w) (CONFIG.BOARD_NAME ++ utf8 "_raw.csv").

Definition above_path (threshold : Z) (w : World) : str :=
  os_path_join (data_dir w)
    (CONFIG.BOARD_NAME ++ utf8 "_above_" ++ str_of_int threshold ++ utf8 "_rec.csv").

(** The last line that passes a test. *)
Definition last_with (p : str -> bool) (lines : list str) : option str :=
  last (filter (fun l => p l = true) lines).

(** A line with neither the title nor the author marker. *)
Definition unmarked (line : str) : Prop :=
  contains TITLE line = false /\ contains AUTHOR line = false.

(** A post whose text names the title twice and the author once. *)
Definition titled_post : list node :=
  [text_node "作者: someone (nick)"; text_node "標題: first";
   text_node "時間 Mon Jan  1 12:00:00 2024";
   text_node "body line"; text_node "Re 標題: second "; text_node "last line"].

(** An index page whose previous-page link has the given target. *)
Definition paging_to (href : str) : list node :=
  [Tag (utf8 "div") {[ utf8 "class" := utf8 "btn-group-paging" ]}
     [Tag (utf8 "a") {[ utf8 "class" := utf8 "btn wide" ]} [];
      Tag (utf8 "a") {[ utf8 "class" := utf8 "btn wide"; utf8 "href" := href ]} []]].

(** * Properties *)

(** ** Facts about the string functions *)

Section PyFacts.

Lemma horner_snoc (ds : list Z) (d : Z) : horner (ds ++ [d]) = 10 * horner ds + d.
Proof. unfold horner. by rewrite foldl_app. Qed.

Lemma digits_fuel_spec (fuel : nat) :
  forall (n : Z) (acc : list Z),
    0 <= n -> (Z.to_nat n < fuel)%nat ->
    exists ds, digits_fuel fuel n acc = ds ++ acc
               /\ ds <> [] /\ Forall is_digit ds /\ horner ds = n.
Proof.
  induction fuel as [|fuel IH]; intros n acc Hn Hfuel; [lia|].
  simpl. destruct (Z.ltb_spec n 10) as [Hlt|Hge].
  - exists [n]. split; [done|]. split; [done|]. split.
    + repeat constructor; unfold is_digit; lia.
    + unfold horner; simpl; lia.
  - assert (Hdiv : 0 <= n / 10 < n) by (split; [apply Z.div_pos|apply Z.div_lt]; lia).
    destruct (IH (n / 10) (n mod 10 :: acc)) as (ds & Heq & Hne & Hall & Hval);
      [lia | lia |].
    exists (ds ++ [n mod 10]). split; [|split; [|split]].
    + by rewrite Heq, <- app_assoc.
    + destruct ds; simpl; congruence.
    + apply Forall_app; split; [done|].
      pose proof (Z.mod_pos_bound n 10).
      repeat constructor; unfold is_digit; lia.
    + rewrite horner_snoc, Hval. pose proof (Z.div_mod n 10); lia.
Qed.

Lemma digits_spec (n : Z) :
  0 <= n -> digits n <> [] /\ Forall is_digit (digits n) /\ horner (digits n) = n.
Proof.
  intros Hn. unfold digits.
  destruct (digits_fuel_spec (S (Z.to_nat n)) n [] Hn) as (ds & Heq & ? & ? & ?);
    [lia|].
  rewrite Heq, app_nil_r. done.
Qed.

Lemma is_digit_cases (d : Z) :
  is_digit d ->
  d = 0 \/ d = 1 \/ d = 2 \/ d = 3 \/ d = 4 \/ d = 5 \/ d = 6 \/ d = 7 \/ d = 8 \/ d = 9.
Proof. unfold is_digit; lia. Qed.

Lemma ascii_digit_char (d : Z) : is_digit d -> ascii_digit (digit_char d) = Some d.
Proof.
  intros H. destruct (is_digit_cases d H) as [->|[->|[->|[->|[->|[->|[->|[->|[->| ->]]]]]]]]];
    reflexivity.
Qed.

Lemma take_digits_chars (ds : list Z) :
  Forall is_digit ds -> take_digits (map digit_char ds) = (ds, []).
Proof.
  induction 1 as [|d ds Hd _ IH]; [done|].
  simpl. rewrite (ascii_digit_char d Hd), IH. done.
Qed.

Lemma skip_space_digit (d : Z) (r : str) :
  is_digit d -> skip_space (digit_char d :: r) = digit_char d :: r.
Proof.
  intros H. destruct (is_digit_cases d H) as [->|[->|[->|[->|[->|[->|[->|[->|[->| ->]]]]]]]]];
    reflexivity.
Qed.

Lemma take_sign_digit (d : Z) (r : str) :
  is_digit d -> take_sign (digit_char d :: r) = (false, digit_char d :: r).
Proof.
  intros H. destruct (is_digit_cases d H) as [->|[->|[->|[->|[->|[->|[->|[->|[->| ->]]]]]]]]];
    reflexivity.
Qed.

(** Unsigned decimal text reads as the number it writes. *)
Lemma parse_decimal_digits (ds : list Z) :
  ds <> [] -> Forall is_digit ds ->
  parse_decimal (map digit_char ds) = Some (horner ds, 0).
Proof.
  intros Hne Hall. destruct ds as [|d ds]; [done|].
  pose proof (Forall_inv Hall) as Hd.
  unfold parse_decimal. simpl map at 1.
  rewrite skip_space_digit, take_sign_digit by done.
  change (digit_char d :: map digit_char ds) with (map digit_char (d :: ds)).
  rewrite take_digits_chars by done. simpl. by rewrite app_nil_r.
Qed.

Lemma parse_decimal_minus_digits (ds : list Z) :
  ds <> [] -> Forall is_digit ds ->
  parse_decimal (45%N :: map digit_char ds) = Some (- horner ds, 0).
Proof.
  intros Hne Hall. destruct ds as [|d ds]; [done|].
  unfold parse_decimal.
  change (take_sign (skip_space (45%N :: map digit_char (d :: ds))))
    with (true, map digit_char (d :: ds)).
  cbv iota beta. rewrite take_digits_chars by done. simpl. by rewrite app_nil_r.
Qed.

Lemma to_numeric_text_str_of_int (z : Z) :
  to_numeric_text (str_of_int z) = Some (of_Z z).
Proof.
  unfold to_numeric_text, str_of_int, of_Z.
  destruct (Z.ltb_spec z 0) as [Hneg|Hpos].
  - destruct (digits_spec (- z)) as (Hne & Hall & Hval); [lia|].
    rewrite parse_decimal_minus_digits, Hval by done.
    by replace (- - z) with z by lia.
  - destruct (digits_spec z Hpos) as (Hne & Hall & Hval).
    by rewrite parse_decimal_digits, Hval.
Qed.

End PyFacts.

(** ** The popularity filter *)

Section Filter.

Implicit Types (rows : list Listing) (t : Z) (tok : str).

Lemma select_map_filter {A} (f : A -> bool) (l : list A) :
  select l (map f l) = filter (fun x => f x = true) l.
Proof.
  induction l as [|x l IH]; [done|].
  simpl. rewrite filter_cons. destruct (f x) eqn:E.
  - rewrite decide_True by done. by rewrite IH.
  - rewrite decide_False by (by intros ?). done.
Qed.

(** The mask of line 133, row by row. *)
Lemma popularity_mask rows t :
  series_ge
    (fillna (of_Z 0) (to_numeric (series_replace nrec_sentinels (map nrec rows)))) t
  = map (fun r => number_ge (normalize (nrec r)) t) rows.
Proof.
  unfold series_ge, fillna, to_numeric, series_replace, normalize.
  rewrite !map_map. done.
Qed.

Lemma process_recommendations_table rows (threshold : option Z) :
  process_recommendations (Table rows) threshold
  = Ok (Table (filter (fun r => number_ge (normalize (nrec r))
                                  (or_int threshold CONFIG.DEFAULT_THRESHOLD) = true)
                 rows)).
Proof.
  unfold process_recommendations. simpl.
  by rewrite popularity_mask, select_map_filter.
Qed.

Lemma process_recommendations_no_columns (threshold : option Z) :
  process_recommendations NoColumns threshold = Raise (KeyError (utf8 "nrec")).
Proof. done. Qed.

Lemma sentinel_lookup_other tok :
  tok <> utf8 "爆" -> tok <> utf8 "X" -> nrec_sentinels !! tok = None.
Proof.
  intros H1 H2. unfold nrec_sentinels.
  rewrite lookup_insert_ne by done. by rewrite lookup_singleton_ne.
Qed.

Lemma normalize_other tok :
  tok <> utf8 "爆" -> tok <> utf8 "X" ->
  normalize tok = default (of_Z 0) (to_numeric_text tok).
Proof. intros H1 H2. unfold normalize. by rewrite sentinel_lookup_other. Qed.

Lemma str_of_int_head (z : Z) :
  exists c r, str_of_int z = c :: r /\ (c = 45 \/ 48 <= c <= 57)%N.
Proof.
  unfold str_of_int. destruct (Z.ltb_spec z 0) as [Hneg|Hpos].
  - eexists _, _. split; [done|]. by left.
  - destruct (digits_spec z Hpos) as (Hne & Hall & _).
    destruct (digits z) as [|d ds]; [done|].
    exists (digit_char d), (map digit_char ds). split; [done|]. right.
    pose proof (Forall_inv Hall) as Hd. unfold is_digit in Hd.
    unfold digit_char. lia.
Qed.

Lemma normalize_str_of_int (z : Z) : normalize (str_of_int z) = of_Z z.
Proof.
  destruct (str_of_int_head z) as (c & r & Heq & Hc).
  rewrite normalize_other, to_numeric_text_str_of_int; [done| |];
    rewrite Heq; intros [= ->]; lia.
Qed.

Lemma take_digits_none (s : str) : no_ascii_digit s -> take_digits s = ([], s).
Proof. destruct 1 as [|c s Hc _]; simpl; [done|]. by rewrite Hc. Qed.

Lemma no_ascii_digit_skip_space (s : str) :
  no_ascii_digit s -> no_ascii_digit (skip_space s).
Proof.
  induction 1 as [|c s Hc Hs IH]; simpl; [constructor|].
  destruct (isspace_ascii c); [done|]. by constructor.
Qed.

(** Text without any ASCII digit does not read as a decimal. *)
Lemma parse_decimal_no_digit (s : str) : no_ascii_digit s -> parse_decimal s = None.
Proof.
  intros Hs%no_ascii_digit_skip_space. unfold parse_decimal.
  assert (exists neg s1, take_sign (skip_space s) = (neg, s1) /\ no_ascii_digit s1)
    as (neg & s1 & -> & Hs1).
  { unfold take_sign. destruct Hs as [|c r Hc Hr].
    - eexists _, _. split; [done|]. constructor.
    - destruct (c =? 45)%N; [by eexists _, _|].
      destruct (c =? 43)%N; eexists _, _; (split; [done|]); [done|].
      by constructor. }
  rewrite take_digits_none by done.
  destruct Hs1 as [|c r Hc Hr]; [done|].
  destruct (c =? 46)%N; [|done]. by rewrite take_digits_none.
Qed.

(** *** Plain tokens *)

Lemma ascii_digit_decimal (c : N) :
  is_ascii_digit c = true ->
  ascii_digit c = Some (Z.of_N c - 48)
  /\ decimal_value c = Some (Z.of_N c - 48)
  /\ isdecimal c = true
  /\ is_digit (Z.of_N c - 48)
  /\ digit_char (Z.of_N c - 48) = c.
Proof.
  unfold is_ascii_digit. intros [H1 H2]%andb_prop.
  apply N.leb_le in H1. apply N.leb_le in H2.
  assert (Hv : decimal_value c = Some (Z.of_N c - 48)).
  { unfold decimal_value, decimal_blocks. cbn [find].
    assert (Hin : ((48 <=? c) && (c <? 48 + 10))%N = true).
    { apply andb_true_intro. split; [by apply N.leb_le|apply N.ltb_lt; lia]. }
    rewrite Hin. simpl. f_equal. lia. }
  split.
  { unfold ascii_digit.
    assert (Hin : ((48 <=? c) && (c <=? 57))%N = true).
    { apply andb_true_intro. split; by apply N.leb_le. }
    by rewrite Hin. }
  split; [done|]. split.
  { unfold isdecimal. rewrite Hv. by apply bool_decide_eq_true. }
  split; [unfold is_digit; lia|]. unfold digit_char. lia.
Qed.

Lemma not_decimal_no_ascii_digit (c : N) : isdecimal c = false -> ascii_digit c = None.
Proof.
  intros Hd. unfold ascii_digit.
  destruct ((48 <=? c) && (c <=? 57))%N eqn:E; [|done].
  destruct (ascii_digit_decimal c E) as (_ & _ & Hdec & _). congruence.
Qed.

(** Integer text reads as its value. *)
Lemma digits_text (cs : str) :
  forallb is_ascii_digit cs = true ->
  cs = map digit_char (map (fun c => Z.of_N c - 48) cs)
  /\ Forall is_digit (map (fun c => Z.of_N c - 48) cs)
  /\ int_of_digits cs = horner (map (fun c => Z.of_N c - 48) cs).
Proof.
  intros Hall. unfold int_of_digits.
  assert (omap decimal_value cs = map (fun c => Z.of_N c - 48) cs
          /\ cs = map digit_char (map (fun c => Z.of_N c - 48) cs)
          /\ Forall is_digit (map (fun c => Z.of_N c - 48) cs)) as (-> & H2 & H3); [|done].
  induction cs as [|c cs IH]; [done|].
  simpl in Hall. apply andb_prop in Hall as [Hc Hcs].
  destruct (ascii_digit_decimal c Hc) as (_ & Hv & _ & Hd & Hch).
  destruct (IH Hcs) as (IH1 & IH2 & IH3).
  split; [|split].
  - change (omap decimal_value (c :: cs))
      with (match decimal_value c with
            | Some y => y :: omap decimal_value cs
            | None => omap decimal_value cs
            end).
    by rewrite Hv, IH1.
  - simpl. by rewrite Hch, <- IH2.
  - by constructor.
Qed.

Lemma to_numeric_text_int_text tok :
  int_text tok = true ->
  to_numeric_text tok
  = Some (of_Z match tok with
               | c :: r => if (c =? 45)%N then - int_of_digits r else int_of_digits tok
               | [] => 0
               end).
Proof.
  unfold int_text. intros [Hlen Hall]%andb_prop.
  apply Nat.ltb_lt in Hlen.
  assert (Hparse : forall cs, cs <> [] -> forallb is_ascii_digit cs = true ->
            parse_decimal cs = Some (int_of_digits cs, 0)
            /\ parse_decimal (45%N :: cs) = Some (- int_of_digits cs, 0)).
  { intros cs Hne Hcs. destruct (digits_text cs Hcs) as (Heq & Hd & ->).
    assert (Hne' : map (fun c : N => Z.of_N c - 48) cs <> []) by (by destruct cs).
    remember (map (fun c : N => Z.of_N c - 48) cs) as ds eqn:Hds. clear Hds.
    subst cs. split.
    - by apply parse_decimal_digits.
    - by apply parse_decimal_minus_digits. }
  unfold to_numeric_text. destruct tok as [|c r]; [simpl in Hlen; lia|].
  unfold unsigned_part in *. destruct (c =? 45)%N eqn:E.
  - apply N.eqb_eq in E. subst c.
    destruct (Hparse r) as [_ ->]; [by destruct r; simpl in *; [lia|]|done|done].
  - by destruct (Hparse (c :: r)) as [-> _].
Qed.

Lemma isspace_ascii_isspace (c : N) : isspace c = false -> isspace_ascii c = false.
Proof.
  unfold isspace, isspace_ascii. intros H.
  repeat (apply orb_false_elim in H as [H ?]).
  apply orb_false_intro.
  - apply N.eqb_neq. intros ->. done.
  - apply andb_false_iff. apply andb_false_iff in H as [H|H]; [by left|by right].
Qed.

Lemma lower_ascii_head (c : N) (r s : str) (x : N) :
  map lower_ascii (c :: r) = s -> head s = Some x ->
  c = x \/ (65 <= c /\ c + 32 = x)%N.
Proof.
  intros <-. simpl. intros [= Hx]. unfold lower_ascii in Hx.
  destruct ((65 <=? c) && (c <=? 90))%N eqn:E; [|by left].
  apply andb_prop in E as [E _]. apply N.leb_le in E. by right.
Qed.

(** Text that starts with a character no number starts with does not read
    as a number. *)
Lemma to_numeric_text_no_start (c : N) (r : str) :
  starts_no_number c = true -> to_numeric_text (c :: r) = None.
Proof.
  unfold starts_no_number. intros H%negb_true_iff.
  do 8 (apply orb_false_elim in H as [H ?]).
  assert (H43 : c <> 43%N) by (by apply N.eqb_neq).
  assert (H45 : c <> 45%N) by (by apply N.eqb_neq).
  assert (H46 : c <> 46%N) by (by apply N.eqb_neq).
  assert (H105 : c <> 105%N) by (by apply N.eqb_neq).
  assert (H73 : c <> 73%N) by (by apply N.eqb_neq).
  assert (Hdig : ascii_digit c = None) by (by apply not_decimal_no_ascii_digit).
  pose proof (isspace_ascii_isspace c H) as Hsp.
  assert (Hdec : parse_decimal (c :: r) = None).
  { unfold parse_decimal. simpl skip_space. rewrite Hsp. unfold take_sign.
    rewrite (proj2 (N.eqb_neq c 45) H45), (proj2 (N.eqb_neq c 43) H43).
    simpl. by rewrite Hdig, (proj2 (N.eqb_neq c 46) H46). }
  assert (Hinf : parse_infinity (c :: r) = None).
  { unfold parse_infinity.
    rewrite bool_decide_eq_false_2.
    - rewrite bool_decide_eq_false_2; [done|].
      intros [Hs|Hs];
        destruct (lower_ascii_head c r _ 45%N Hs eq_refl) as [?|[? ?]]; lia.
    - intros [Hs|[Hs|[Hs|Hs]]].
      + destruct (lower_ascii_head c r _ 105%N Hs eq_refl) as [?|[? ?]]; lia.
      + destruct (lower_ascii_head c r _ 43%N Hs eq_refl) as [?|[? ?]]; lia.
      + destruct (lower_ascii_head c r _ 105%N Hs eq_refl) as [?|[? ?]]; lia.
      + destruct (lower_ascii_head c r _ 43%N Hs eq_refl) as [?|[? ?]]; lia. }
  unfold to_numeric_text. by rewrite Hdec, Hinf.
Qed.

Lemma to_numeric_text_not_numeric tok :
  not_numeric tok = true -> to_numeric_text tok = None.
Proof.
  destruct tok as [|c r]; [done|]. unfold not_numeric.
  intros [Hstart|[Hall Hinf]%andb_prop]%orb_prop.
  - by apply to_numeric_text_no_start.
  - apply negb_true_iff in Hinf.
    assert (Hno : forall s, contains (utf8 "inf") s = true ->
                            map lower_ascii (c :: r) <> s).
    { intros s Hs Heq. rewrite Heq in Hinf. congruence. }
    assert (Hnone : parse_infinity (c :: r) = None).
    { unfold parse_infinity. rewrite !bool_decide_eq_false_2; [done| |].
      - intros [H|H]; (eapply Hno; [|exact H]); reflexivity.
      - intros [H|[H|[H|H]]]; (eapply Hno; [|exact H]); reflexivity. }
    unfold to_numeric_text. rewrite parse_decimal_no_digit, Hnone; [done|].
    apply Forall_forall. intros x Hx.
    apply not_decimal_no_ascii_digit.
    rewrite forallb_forall in Hall. apply negb_true_iff, Hall.
    by apply list_elem_of_In.
Qed.

(** On a plain token the filter scores as the specification says. *)
Lemma normalize_plain tok :
  plain_token tok = true -> normalize tok = of_Z (spec_score tok).
Proof.
  unfold plain_token, spec_score. intros Hplain.
  destruct (decide (tok = utf8 "爆")) as [->|H1]; [done|].
  destruct (decide (tok = utf8 "X")) as [->|H2]; [done|].
  rewrite !bool_decide_eq_false_2 in * by done. simpl in Hplain.
  rewrite normalize_other by done.
  destruct (int_text tok) eqn:E.
  - by rewrite to_numeric_text_int_text.
  - unfold small_int_text in Hplain. rewrite E in Hplain. simpl in Hplain.
    by rewrite to_numeric_text_not_numeric.
Qed.

Lemma number_ge_of_Z (z t : Z) : number_ge (of_Z z) t = true <-> t <= z.
Proof. unfold number_ge, of_Z. simpl. rewrite Z.leb_le. lia. Qed.

Lemma filter_ext_Forall {A} (P Q : A -> Prop) `{!forall x, Decision (P x)}
    `{!forall x, Decision (Q x)} (l : list A) :
  Forall (fun x => P x <-> Q x) l -> filter P l = filter Q l.
Proof.
  induction 1 as [|x l Hx _ IH]; [done|].
  rewrite !filter_cons, IH. destruct (decide (P x)) as [HP|HP].
  - by rewrite decide_True by (by apply Hx).
  - by rewrite decide_False by (by rewrite <- Hx).
Qed.

Lemma sublist_filter_mono {A} (P Q : A -> Prop) `{!forall x, Decision (P x)}
    `{!forall x, Decision (Q x)} (l : list A) :
  (forall x, P x -> Q x) -> sublist (filter P l) (filter Q l).
Proof.
  intros HPQ. induction l as [|x l IH]; [constructor|].
  rewrite !filter_cons. destruct (decide (P x)) as [HP|HP].
  - rewrite decide_True by (by apply HPQ). by constructor.
  - destruct (decide (Q x)); [by constructor|done].
Qed.

(** The filter on a column of plain tokens. *)
Lemma process_recommendations_plain rows (threshold : option Z) :
  Forall (fun r => plain_token (nrec r) = true) rows ->
  process_recommendations (Table rows) threshold
  = Ok (Table (filter (fun r => or_int threshold CONFIG.DEFAULT_THRESHOLD
                                <= spec_score (nrec r)) rows)).
Proof.
  intros Hplain. rewrite process_recommendations_table. do 2 f_equal.
  apply filter_ext_Forall. eapply Forall_impl; [exact Hplain|].
  intros r Hr. simpl. rewrite (normalize_plain _ Hr). apply number_ge_of_Z.
Qed.

End Filter.

(** C1, as amended: the score the Popularity Filter gives a raw token.
    The sentinel "爆" scores 100 and the sentinel "X" scores -1; the decimal
    text of an integer of fewer than 16 digits scores that integer ("37"
    scores 37); "0.5" scores 5 * 10^-1; a token that is no number scores 0,
    among them the empty string and "abc".  On every plain token the score
    is the one the specification words: 100, -1, the integer value of
    integer text, and 0 otherwise. *)
Theorem normalize_by_cases (tok : str) :
  normalize (utf8 "爆") = of_Z 100
  /\ normalize (utf8 "X") = of_Z (-1)
  /\ normalize (utf8 "37") = of_Z 37
  /\ normalize (utf8 "0.5") = Finite 5 (-1)
  /\ normalize (utf8 "") = of_Z 0
  /\ normalize (utf8 "abc") = of_Z 0
  /\ (forall z : Z, safe_int z = true -> normalize (str_of_int z) = of_Z z)
  /\ (plain_token tok = true -> normalize tok = of_Z (spec_score tok))
  /\ (not_numeric tok = true -> tok <> utf8 "爆" -> tok <> utf8 "X" ->
      normalize tok = of_Z 0).
Proof.
  split; [vm_compute; reflexivity|]. split; [vm_compute; reflexivity|].
  split; [vm_compute; reflexivity|]. split; [vm_compute; reflexivity|].
  split; [vm_compute; reflexivity|]. split; [vm_compute; reflexivity|].
  split; [intros z _; apply normalize_str_of_int|].
  split; [apply normalize_plain|].
  intros Hnot H1 H2. rewrite normalize_other by done.
  by rewrite to_numeric_text_not_numeric.
Qed.

Lemma normalize_by_cases_witness :
  plain_token (utf8 "X1") = true
  /\ normalize (utf8 "X1") = of_Z 0
  /\ normalize (str_of_int (-12)) = of_Z (-12).
Proof.
  split; [reflexivity|]. split.
  - exact (proj1 (proj2 (proj2 (proj2 (proj2 (proj2 (proj2 (proj2
             (normalize_by_cases (utf8 "X1"))))))))) eq_refl).
  - exact (proj1 (proj2 (proj2 (proj2 (proj2 (proj2 (proj2
             (normalize_by_cases (utf8 "X1")))))))) (-12) eq_refl).
Defined.

(** C1, as stated, fails at the token "0.5": it is neither sentinel nor
    integer text, and its score is no integer at all, so neither an integer
    value of the text nor 0. *)
Lemma normalize_decimal_text_counterexample :
  utf8 "0.5" <> utf8 "爆" /\ utf8 "0.5" <> utf8 "X"
  /\ int_text (utf8 "0.5") = false
  /\ normalize (utf8 "0.5") = Finite 5 (-1)
  /\ (forall z : Z, ~ number_is (normalize (utf8 "0.5")) z)
  /\ number_ge (normalize (utf8 "0.5")) 1 = false
  /\ number_ge (normalize (utf8 "0.5")) 0 = true.
Proof.
  repeat split; try (vm_compute; congruence).
  intros z Hz. assert (H : 5 = z * 10) by exact Hz. lia.
Qed.

(** C2, as amended: for every listing collection that has the listing
    columns and whose popularity tokens are plain, and for every threshold
    [t] of fewer than 16 digits other than 0, the Popularity Filter returns
    exactly the input records whose score, in the words of the
    specification, is at least [t], in the order of the input.  It is a
    function of its two arguments and does not touch the world. *)
Theorem process_recommendations_selects (rows : list Listing) (t : Z) :
  t <> 0 -> safe_int t = true ->
  Forall (fun r => plain_token (nrec r) = true) rows ->
  exists out,
    process_recommendations (Table rows) (Some t) = Ok (Table out)
    /\ out = filter (fun r => t <= spec_score (nrec r)) rows
    /\ sublist out rows
    /\ forall r, r ∈ out <-> r ∈ rows /\ t <= spec_score (nrec r).
Proof.
  intros Ht _ Hplain. eexists. split; [|split; [reflexivity|split]].
  - rewrite process_recommendations_plain by done. simpl.
    destruct (Z.eqb_spec t 0) as [->|_]; [done|]. reflexivity.
  - apply sublist_filter.
  - intros r. by rewrite list_elem_of_filter, (comm and).
Qed.

Lemma process_recommendations_selects_witness :
  exists out,
    process_recommendations
      (Table (listing_of_nrec <$> [utf8 "10"; utf8 "爆"; utf8 "X"; utf8 "X3"; utf8 "55";
                                   utf8 ""; utf8 "41"]))
      (Some 41) = Ok (Table out)
    /\ out = listing_of_nrec <$> [utf8 "爆"; utf8 "55"; utf8 "41"].
Proof.
  destruct (process_recommendations_selects
              (listing_of_nrec <$> [utf8 "10"; utf8 "爆"; utf8 "X"; utf8 "X3"; utf8 "55";
                                    utf8 ""; utf8 "41"])
              41 ltac:(lia) ltac:(reflexivity)
              ltac:(repeat constructor)) as (out & Hrun & Hout & _).
  exists out. split; [exact Hrun|]. rewrite Hout. vm_compute. reflexivity.
Defined.

(** C2, as stated, fails at the threshold 0: a listing whose score 10 is
    at least 0 is not returned. *)
Lemma process_recommendations_zero_counterexample :
  plain_token (utf8 "10") = true
  /\ 0 <= spec_score (nrec (listing_of_nrec (utf8 "10")))
  /\ number_ge (normalize (nrec (listing_of_nrec (utf8 "10")))) 0 = true
  /\ process_recommendations (Table [listing_of_nrec (utf8 "10")]) (Some 0)
     = Ok (Table []).
Proof. repeat split; vm_compute; congruence. Qed.

(** The frame without columns, which [crawl_posts] returns when nothing was
    scraped, makes the filter raise. *)
Example process_recommendations_empty_crawl :
  process_recommendations (DataFrame_of []) None = Raise (KeyError (utf8 "nrec")).
Proof. reflexivity. Qed.

(** The end-to-end scenario of the specification, at the default. *)
Example process_recommendations_scenario :
  process_recommendations
    (Table (listing_of_nrec <$> [utf8 "10"; utf8 "爆"; utf8 "X"; utf8 "55"; utf8 "0"; utf8 "41"]))
    (Some 40)
  = Ok (Table (listing_of_nrec <$> [utf8 "爆"; utf8 "55"; utf8 "41"])).
Proof. vm_compute. reflexivity. Qed.

(** C8, as amended: the filter at the threshold 0 is the filter at 40, so
    what it returns at 40 it returns at 0; and on a collection with the
    listing columns and plain tokens, between two thresholds of fewer than
    16 digits, neither of them 0, lowering the threshold removes no
    record and keeps the order. *)
Theorem lowering_threshold_keeps_selected (rows : list Listing) (t1 t2 : Z) :
  t1 <> 0 -> t2 <> 0 -> safe_int t1 = true -> safe_int t2 = true ->
  t1 <= t2 ->
  Forall (fun r => plain_token (nrec r) = true) rows ->
  (forall df, process_recommendations df (Some 0)
              = process_recommendations df (Some 40))
  /\ exists out1 out2,
       process_recommendations (Table rows) (Some t1) = Ok (Table out1)
       /\ process_recommendations (Table rows) (Some t2) = Ok (Table out2)
       /\ sublist out2 out1
       /\ forall r, r ∈ out2 -> r ∈ out1.
Proof.
  intros H1 H2 _ _ Hle Hplain. split; [done|].
  assert (Ht : forall t, t <> 0 -> or_int (Some t) CONFIG.DEFAULT_THRESHOLD = t).
  { intros t Hz. unfold or_int. by destruct t. }
  assert (Hsub : sublist (filter (fun r => t2 <= spec_score (nrec r)) rows)
                   (filter (fun r => t1 <= spec_score (nrec r)) rows)).
  { apply sublist_filter_mono. intros r. simpl. lia. }
  eexists _, _. rewrite !process_recommendations_plain, !Ht by done.
  split; [reflexivity|]. split; [reflexivity|]. split; [exact Hsub|].
  intros r Hr. by apply (elem_of_sublist _ _ _ Hr).
Qed.

Lemma lowering_threshold_keeps_selected_witness :
  exists out1 out2,
    process_recommendations (Table (listing_of_nrec <$> [utf8 "10"; utf8 "爆"; utf8 "55"]))
      (Some 10) = Ok (Table out1)
    /\ process_recommendations (Table (listing_of_nrec <$> [utf8 "10"; utf8 "爆"; utf8 "55"]))
         (Some 50) = Ok (Table out2)
    /\ sublist out2 out1
    /\ forall r, r ∈ out2 -> r ∈ out1.
Proof.
  apply (lowering_threshold_keeps_selected
           (listing_of_nrec <$> [utf8 "10"; utf8 "爆"; utf8 "55"]) 10 50);
    [lia | lia | reflexivity | reflexivity | lia | repeat constructor].
Defined.

(** C8, as stated, fails for its own reading (lowering the threshold never
    removes a selected record): the record that the filter returns at the
    threshold 10 is removed when the threshold is lowered to 0, which
    stands for 40. *)
Lemma lowering_to_zero_counterexample :
  plain_token (utf8 "10") = true
  /\ process_recommendations (Table [listing_of_nrec (utf8 "10")]) (Some 10)
     = Ok (Table [listing_of_nrec (utf8 "10")])
  /\ process_recommendations (Table [listing_of_nrec (utf8 "10")]) (Some 0)
     = Ok (Table []).
Proof. repeat split; vm_compute; reflexivity. Qed.

(** C9: a threshold of 0, like no threshold, is replaced by the default 40,
    in the filter and in [process_and_save_data]: the result at 0 is the
    result at 40; so it leaves out every record that the filter leaves out
    at 40, and is not the whole collection when there is such a record. *)
Theorem falsy_threshold_is_default (df : DataFrame) :
  process_recommendations df (Some 0) = process_recommendations df (Some 40)
  /\ process_recommendations df None = process_recommendations df (Some 40)
  /\ (forall filename w,
        process_and_save_data df (Some 0) filename w
        = process_and_save_data df (Some 40) filename w)
  /\ (forall rows out40 r,
        df = Table rows -> r ∈ rows ->
        process_recommendations df (Some 40) = Ok (Table out40) ->
        r ∉ out40 ->
        exists out,
          process_recommendations df (Some 0) = Ok (Table out)
          /\ (r ∉ out) /\ out <> rows).
Proof.
  split; [done|]. split; [done|]. split; [done|].
  intros rows out40 r -> Hin H40 Hnot. exists out40.
  split; [exact H40|]. split; [exact Hnot|].
  intros Heq. by rewrite Heq in Hnot.
Qed.

Lemma falsy_threshold_is_default_witness :
  exists out,
    process_recommendations (Table [listing_of_nrec (utf8 "10")]) (Some 0)
    = Ok (Table out)
    /\ (listing_of_nrec (utf8 "10") ∉ out)
    /\ out <> [listing_of_nrec (utf8 "10")].
Proof.
  apply (proj2 (proj2 (proj2 (falsy_threshold_is_default
           (Table [listing_of_nrec (utf8 "10")]))))
           [listing_of_nrec (utf8 "10")] [] (listing_of_nrec (utf8 "10"))).
  - reflexivity.
  - apply list_elem_of_here.
  - vm_compute. reflexivity.
  - apply not_elem_of_nil.
Defined.

(** With the threshold 0 the dump goes to the file named after 40. *)
Example process_and_save_data_zero (rows : list Listing) (w : World) :
  dumps (exec (process_and_save_data (Table rows) (Some 0) None) w)
    !! above_path 40 w
  = Some (Table (filter (fun r => number_ge (normalize (nrec r)) 40 = true) rows)).
Proof.
  unfold process_and_save_data. rewrite process_recommendations_table.
  unfold exec. simpl. apply lookup_insert_eq.
Qed.

(** ** The fetcher *)

Lemma safe_request_run (url : str) (headers : option (gmap str str)) (w : World) :
  safe_request url headers w
  = (match http w url (or_dict headers CONFIG.HEADERS) with
     | Raises _ => None
     | Returns r => Some (received r)
     end,
     set_requested (requested w ++ [url]) w).
Proof.
  unfold safe_request, requests_get, mbind, M_bind, mret, M_ret.
  by destruct (http w url _).
Qed.

(** C7, as amended: for every URL the Fetcher turns every exception of the
    transport into an absent result and raises nothing; a response is
    handed to the caller whatever its status, and the caller's test
    [if not res] takes it for absent exactly when the status is in
    400..599. *)
Theorem safe_request_absorbs_exceptions
    (url : str) (headers : option (gmap str str)) (w : World) :
  let out := http w url (or_dict headers CONFIG.HEADERS) in
  (forall err, out = Raises err -> eval (safe_request url headers) w = None)
  /\ (forall r, out = Returns r ->
        eval (safe_request url headers) w = Some (received r))
  /\ (truthy (eval (safe_request url headers) w) = None
      <-> (exists err, out = Raises err)
          \/ (exists r, out = Returns r /\ 400 <= status_code r < 600)).
Proof.
  intros out. unfold eval. rewrite safe_request_run. fold out. simpl.
  split; [by intros err ->|]. split; [by intros r ->|].
  destruct out as [err|r]; simpl.
  - split; [eauto|done].
  - unfold ok. simpl.
    destruct (Z.leb_spec 400 (status_code r)), (Z.ltb_spec (status_code r) 600);
      simpl; split; try done; try (intros _; right; exists r; split; [done|lia]).
    all: intros [[err [=]]|[r' [[= <-] ?]]]; lia.
Qed.

Lemma safe_request_absorbs_exceptions_witness :
  eval (safe_request (utf8 "https://www.ptt.cc/bbs/stock/index.html") None)
    (world_of (Raises (utf8 "timed out"))) = None.
Proof.
  apply (proj1 (safe_request_absorbs_exceptions
                  (utf8 "https://www.ptt.cc/bbs/stock/index.html") None
                  (world_of (Raises (utf8 "timed out"))))
           (utf8 "timed out")).
  reflexivity.
Defined.

(** C7, as stated, fails at a response with a status outside 2xx: with 404
    the Fetcher returns the response, not an absent result; with 304 the
    response it returns is even true for its callers. *)
Lemma safe_request_status_counterexample :
  let url := utf8 "https://www.ptt.cc/bbs/stock/index.html" in
  (exists r, eval (safe_request url None) (world_of (response 404)) = Some r
             /\ status_code r = 404)
  /\ (exists r, eval (safe_request url None) (world_of (response 304)) = Some r
                /\ status_code r = 304 /\ truthy (Some r) = Some r).
Proof. split; eexists; repeat split. Qed.

(** ** The pagination resolver *)

Section Pagination.

Variable decode : option str -> list N -> str.
Variable html_parser : str -> list node.

Lemma startswith_app (p s : str) : startswith p (p ++ s) = true.
Proof. induction p as [|a p IH]; simpl; [done|]. by rewrite N.eqb_refl. Qed.

Lemma span_decimal_app (ds r : str) :
  Forall (fun c => isdecimal c = true) ds ->
  match r with [] => True | c :: _ => isdecimal c = false end ->
  span_decimal (ds ++ r) = (ds, r).
Proof.
  intros Hds Hr. induction Hds as [|c ds Hc _ IH]; simpl.
  - destruct r as [|c r]; [done|]. simpl. by rewrite Hr.
  - by rewrite Hc, IH.
Qed.

Lemma match_index_here_intro (ds post : str) :
  ds <> [] -> Forall (fun c => isdecimal c = true) ds ->
  match_index_here (utf8 "index" ++ ds ++ utf8 ".html" ++ post) = Some ds.
Proof.
  intros Hne Hds. unfold match_index_here.
  rewrite startswith_app.
  change (drop 5 (utf8 "index" ++ ds ++ utf8 ".html" ++ post))
    with (ds ++ utf8 ".html" ++ post).
  rewrite span_decimal_app; [|done|by vm_compute].
  destruct ds; [done|]. by rewrite startswith_app.
Qed.

Lemma search_index_unfold (s : str) :
  search_index s
  = match match_index_here s with
    | Some ds => Some ds
    | None => match s with [] => None | _ :: s' => search_index s' end
    end.
Proof. by destruct s. Qed.

(** The leftmost match wins: a prefix in which no match starts is skipped. *)
Lemma search_index_skip (pre rest : str) :
  no_match_inside pre rest = true -> search_index (pre ++ rest) = search_index rest.
Proof.
  induction pre as [|c pre IH]; [done|].
  simpl no_match_inside. intros [Hhere Hpre]%andb_prop.
  apply bool_decide_eq_true in Hhere.
  change ((c :: pre) ++ rest) with (c :: pre ++ rest) in *.
  rewrite (search_index_unfold (c :: pre ++ rest)), Hhere. by apply IH.
Qed.

Lemma search_index_first (pre ds post : str) :
  ds <> [] -> Forall (fun c => isdecimal c = true) ds ->
  no_match_inside pre (utf8 "index" ++ ds ++ utf8 ".html" ++ post) = true ->
  search_index (pre ++ utf8 "index" ++ ds ++ utf8 ".html" ++ post) = Some ds.
Proof.
  intros Hne Hds Hpre. rewrite search_index_skip by done.
  by rewrite search_index_unfold, match_index_here_intro.
Qed.

Lemma decimal_digit_char (d : Z) :
  is_digit d -> isdecimal (digit_char d) = true /\ decimal_value (digit_char d) = Some d.
Proof.
  intros H. destruct (is_digit_cases d H) as [->|[->|[->|[->|[->|[->|[->|[->|[->| ->]]]]]]]]];
    by vm_compute.
Qed.

(** The text [str] writes for a natural number is a run of decimal
    characters that [int] reads back. *)
Lemma str_of_int_decimal (k : Z) :
  0 <= k ->
  str_of_int k <> []
  /\ Forall (fun c => isdecimal c = true) (str_of_int k)
  /\ int_of_digits (str_of_int k) = k.
Proof.
  intros Hk. unfold str_of_int. destruct (Z.ltb_spec k 0); [lia|].
  destruct (digits_spec k Hk) as (Hne & Hall & Hval).
  split; [by destruct (digits k)|]. split.
  - apply Forall_map. eapply Forall_impl; [exact Hall|].
    intros d Hd. apply decimal_digit_char, Hd.
  - unfold int_of_digits. rewrite <- Hval at 2. f_equal.
    clear Hne Hval. induction Hall as [|d ds Hd _ IH]; [done|].
    change (omap decimal_value (map digit_char (d :: ds)))
      with (match decimal_value (digit_char d) with
            | Some y => y :: omap decimal_value (map digit_char ds)
            | None => omap decimal_value (map digit_char ds)
            end).
    destruct (decimal_digit_char d Hd) as [_ ->]. by rewrite IH.
Qed.

Lemma int_within (s : str) :
  (length s <= int_max_str_digits)%nat -> int s = Ok (int_of_digits s).
Proof.
  intros Hlen. unfold int.
  by destruct (Nat.ltb_spec int_max_str_digits (length s)); [lia|].
Qed.

Lemma int_beyond (s : str) :
  (int_max_str_digits < length s)%nat -> int s = Raise ValueError.
Proof.
  intros Hlen. unfold int.
  by destruct (Nat.ltb_spec int_max_str_digits (length s)); [|lia].
Qed.

Lemma get_latest_index_eval (board_url : option str) (w : World) :
  eval (get_latest_index decode html_parser board_url) w
  = match fetched_page decode html_parser (or_str board_url CONFIG.BOARD_URL) w with
    | None => Ok None
    | Some soup =>
      match select_one paging_selector soup with
      | None => Ok None
      | Some prev =>
        match getitem prev (utf8 "href") with
        | Raise e => Raise e
        | Ok href =>
          match search_index href with
          | Some group1 =>
            match int group1 with
            | Raise e => Raise e
            | Ok k => Ok (Some (k + 1))
            end
          | None => Ok None
          end
        end
      end
    end.
Proof.
  unfold fetched_page, get_latest_index, eval, mbind, M_bind.
  destruct (safe_request _ None w) as [res w'] eqn:E. simpl.
  destruct (truthy res) as [r|]; simpl; [|done].
  destruct (select_one _ _) as [prev|]; [|done].
  destruct (getitem prev _) as [href|e]; [|done].
  destruct (search_index href) as [group1|]; [|done].
  by destruct (int group1).
Qed.

End Pagination.

(** C4, as amended: when the index page is fetched and the anchor the
    selector picks carries the link target [href], the resolver reads the
    first place in [href] that has the form index<digits>.html: for a run
    of at most 4300 digits it returns the number [k] of the run plus one
    (so it does for a link target that ends in index<k>.html and has no
    such place before), and for a longer run it raises ValueError.  It
    returns an absent result when the page is unreachable (the request
    raised or the response is false), when no anchor is picked, and when
    the link target of the anchor has no such place. *)
Theorem get_latest_index_resolves
    (decode : option str -> list N -> str) (html_parser : str -> list node)
    (board_url : option str) (w : World) :
  let url := or_str board_url CONFIG.BOARD_URL in
  let page := fetched_page decode html_parser url w in
  let result := eval (get_latest_index decode html_parser board_url) w in
  (page = None -> result = Ok None)
  /\ (forall soup, page = Some soup ->
        select_one paging_selector soup = None -> result = Ok None)
  /\ (forall soup prev href,
        page = Some soup ->
        select_one paging_selector soup = Some prev ->
        getitem prev (utf8 "href") = Ok href ->
        (search_index href = None -> result = Ok None)
        /\ (forall pre ds post,
              href = pre ++ utf8 "index" ++ ds ++ utf8 ".html" ++ post ->
              ds <> [] -> Forall (fun c => isdecimal c = true) ds ->
              no_match_inside pre (utf8 "index" ++ ds ++ utf8 ".html" ++ post) = true ->
              ((length ds <= int_max_str_digits)%nat ->
               result = Ok (Some (int_of_digits ds + 1)))
              /\ ((int_max_str_digits < length ds)%nat ->
                  result = Raise ValueError))
        /\ (forall pre k,
              href = pre ++ utf8 "index" ++ str_of_int k ++ utf8 ".html" ->
              0 <= k ->
              (length (str_of_int k) <= int_max_str_digits)%nat ->
              no_match_inside pre (utf8 "index" ++ str_of_int k ++ utf8 ".html") = true ->
              result = Ok (Some (k + 1)))).
Proof.
  intros url page result. subst result. rewrite get_latest_index_eval.
  fold url. fold page.
  split; [by intros ->|]. split; [by intros soup -> ->|].
  intros soup prev href -> -> ->.
  split; [by intros ->|]. split.
  - intros pre ds post -> Hne Hds Hpre. rewrite search_index_first by done.
    split; intros Hlen.
    + by rewrite int_within.
    + by rewrite int_beyond.
  - intros pre k -> Hk Hlen Hpre.
    destruct (str_of_int_decimal k Hk) as (Hne & Hds & Hval).
    replace (pre ++ utf8 "index" ++ str_of_int k ++ utf8 ".html")
      with (pre ++ utf8 "index" ++ str_of_int k ++ utf8 ".html" ++ [])
      by (by rewrite app_nil_r).
    rewrite search_index_first; [|done|done|by rewrite app_nil_r].
    by rewrite int_within, Hval.
Qed.

Lemma get_latest_index_resolves_witness :
  eval (get_latest_index (fun _ b => b)
          (fun _ => index_page [("href", "/bbs/stock/index123.html")]%string) None)
    (world_of (response 200))
  = Ok (Some 124).
Proof.
  pose (doc := index_page [("href", "/bbs/stock/index123.html")]%string).
  pose (prev := tag "a" [("class", "btn wide"); ("href", "/bbs/stock/index123.html")]%string
                  [NavigableString (utf8 "previous")]).
  apply (proj2 (proj2 (proj2 (proj2 (get_latest_index_resolves (fun _ b => b) (fun _ => doc)
           None (world_of (response 200)))) doc prev (utf8 "/bbs/stock/index123.html")
           ltac:(reflexivity) ltac:(vm_compute; reflexivity) ltac:(vm_compute; reflexivity)))
           (utf8 "/bbs/stock/") 123).
  - vm_compute. reflexivity.
  - lia.
  - apply Nat.leb_le. vm_compute. reflexivity.
  - vm_compute. reflexivity.
Defined.

(** C4, as stated, fails at a link target that ends in index5.html after an
    earlier index1.html: the resolver returns 2, not 6. *)
Lemma get_latest_index_trailing_counterexample :
  let href := "/bbs/index1.html/index5.html"%string in
  let doc := index_page [("href", href)] in
  select_one paging_selector doc
  = Some (tag "a" [("class", "btn wide"); ("href", href)]%string
            [NavigableString (utf8 "previous")])
  /\ utf8 href = utf8 "/bbs/index1.html/" ++ utf8 "index" ++ str_of_int 5 ++ utf8 ".html"
  /\ eval (get_latest_index (fun _ b => b) (fun _ => doc) None)
       (world_of (response 200))
     = Ok (Some 2).
Proof. repeat split; vm_compute; reflexivity. Qed.

(** A previous-page anchor without a link target, as on a board of a single
    page, makes the resolver raise. *)
Example get_latest_index_no_href :
  eval (get_latest_index (fun _ b => b) (fun _ => index_page []) None)
    (world_of (response 200))
  = Raise (KeyError (utf8 "href")).
Proof. vm_compute. reflexivity. Qed.

Example get_latest_index_unreachable :
  eval (get_latest_index (fun _ b => b)
          (fun _ => index_page [("href", "/bbs/stock/index123.html")]%string) None)
    (world_of (response 503))
  = Ok None.
Proof. vm_compute. reflexivity. Qed.

(** A run of 4301 digits in the link target makes the resolver raise. *)
Example get_latest_index_long_run :
  eval (get_latest_index (fun _ b => b)
          (fun _ => paging_to (utf8 "/bbs/stock/index" ++ replicate 4301 49%N
                               ++ utf8 ".html")) None)
    (world_of (response 200))
  = Raise ValueError.
Proof. vm_compute. reflexivity. Qed.

(** ** The content extractor *)

Section StripFacts.

Lemma lstrip_solid (s : str) : starts_solid s -> lstrip s = s.
Proof. destruct s as [|c s]; simpl; [done|]. by intros ->. Qed.

Lemma lstrip_starts_solid (s : str) : starts_solid (lstrip s).
Proof.
  induction s as [|c s IH]; simpl; [done|].
  destruct (isspace c) eqn:E; [done|]. simpl. done.
Qed.

(** What [lstrip] removes is a prefix. *)
Lemma lstrip_suffix (s : str) : exists p, s = p ++ lstrip s.
Proof.
  induction s as [|c s [p IH]]; [by exists []|]. simpl.
  destruct (isspace c).
  - exists (c :: p). simpl. by rewrite <- IH.
  - by exists [].
Qed.

Lemma starts_solid_prefix (a b : str) :
  a <> [] -> starts_solid (a ++ b) -> starts_solid a.
Proof. by destruct a. Qed.

Lemma starts_solid_app (a b : str) : a <> [] -> starts_solid a -> starts_solid (a ++ b).
Proof. by destruct a. Qed.

Lemma strip_solid (s : str) : solid s -> strip s = s.
Proof.
  intros (_ & Hl & Hr). unfold strip, rstrip.
  by rewrite (lstrip_solid s Hl), (lstrip_solid (rev s) Hr), rev_involutive.
Qed.

(** The result of [strip] neither starts nor ends with a blank. *)
Lemma strip_is_solid (s : str) : strip s <> [] -> solid (strip s).
Proof.
  intros Hne. split; [done|]. revert Hne. unfold strip, rstrip.
  set (t := lstrip s). set (u := lstrip (rev t)). intros Hne.
  split.
  - destruct (lstrip_suffix (rev t)) as [p Hp]. fold u in Hp.
    assert (Ht : t = rev u ++ rev p).
    { rewrite <- (rev_involutive t), Hp. by rewrite rev_app_distr. }
    apply (starts_solid_prefix _ (rev p)); [done|].
    rewrite <- Ht. apply lstrip_starts_solid.
  - rewrite rev_involutive. apply lstrip_starts_solid.
Qed.

Lemma join_cons (sep p : str) (ps : list str) :
  ps <> [] -> join sep (p :: ps) = p ++ sep ++ join sep ps.
Proof. by destruct ps. Qed.

Lemma join_not_nil (sep : str) (ps : list str) :
  ps <> [] -> Forall solid ps -> join sep ps <> [].
Proof.
  intros Hne Hall. destruct Hall as [|p ps (Hp & _) _]; [done|].
  destruct ps; simpl; [done|]. by destruct p.
Qed.

(** Joining solid lines gives solid text, whatever the separator. *)
Lemma join_solid (sep : str) (ps : list str) :
  ps <> [] -> Forall solid ps -> solid (join sep ps).
Proof.
  intros Hne Hall. induction Hall as [|p ps Hp Hps IH]; [done|].
  destruct (decide (ps = [])) as [->|Hne']; [done|].
  rewrite join_cons by done. specialize (IH Hne').
  destruct Hp as (Hp0 & Hp1 & Hp2), IH as (IH0 & IH1 & IH2).
  split; [by destruct p|]. split.
  - by apply starts_solid_app.
  - rewrite !rev_app_distr, <- app_assoc.
    apply starts_solid_app; [|done].
    intros Hrev. apply IH0. by rewrite <- (rev_involutive (join sep ps)), Hrev.
Qed.

Lemma strip_join_solid (sep : str) (ps : list str) :
  Forall solid ps -> strip (join sep ps) = join sep ps.
Proof.
  intros Hall. destruct (decide (ps = [])) as [->|Hne]; [done|].
  by apply strip_solid, join_solid.
Qed.

End StripFacts.

Section Extraction.

(** Every line the extractor reads is solid (line 177). *)
Lemma lines_of_solid (main : node) : Forall solid (lines_of main).
Proof.
  unfold lines_of. apply Forall_fmap, Forall_forall.
  intros ln [Hne _]%list_elem_of_filter. simpl. by apply strip_is_solid.
Qed.

(** The first pass keeps, in order, the lines with neither marker
    (lines 183-191). *)
Lemma classify_body (lines : list str) (title source : str) (body : list str) :
  (foldl classify_line (title, source, body) lines).2
  = body ++ filter (fun l => contains TITLE l = false /\ contains AUTHOR l = false) lines.
Proof.
  revert title source body.
  induction lines as [|l lines IH]; intros title source body; simpl.
  - by rewrite app_nil_r.
  - rewrite filter_cons. destruct (contains TITLE l) eqn:Et.
    + rewrite IH, decide_False by (by intros [? _]). done.
    + destruct (contains AUTHOR l) eqn:Ea.
      * rewrite IH, decide_False by (by intros [_ ?]). done.
      * rewrite IH, decide_True by done. by rewrite <- app_assoc.
Qed.

Lemma provisional_body_solid (main : node) : Forall solid (provisional_body main).
Proof.
  unfold provisional_body. rewrite classify_body. simpl.
  apply Forall_forall. intros l [_ Hin]%list_elem_of_filter.
  revert l Hin. apply Forall_forall, lines_of_solid.
Qed.

Lemma clean_started (lines acc : list str) :
  foldl clean_step (true, acc) lines = (true, acc ++ lines).
Proof.
  revert acc. induction lines as [|l lines IH]; intros acc; simpl.
  - by rewrite app_nil_r.
  - by rewrite IH, <- app_assoc.
Qed.

(** The second pass drops the leading lines with a marker and keeps
    everything from the first line without one (lines 192-199). *)
Lemma clean_lines_header (header rest : list str) :
  Forall (fun l => has_marker l = true) header ->
  match rest with [] => True | l :: _ => has_marker l = false end ->
  clean_lines (header ++ rest) = rest.
Proof.
  intros Hh Hr. unfold clean_lines. rewrite foldl_app.
  assert (Hskip : foldl clean_step (false, []) header = (false, [])).
  { induction Hh as [|l header Hl _ IH]; [done|]. simpl.
    unfold has_marker in Hl. by rewrite Hl. }
  rewrite Hskip. destruct rest as [|l rest]; [done|]. simpl.
  unfold has_marker in Hr. rewrite Hr. by rewrite clean_started.
Qed.

Variable decode : option str -> list N -> str.
Variable html_parser : str -> list node.

Lemma get_structured_content_run (url : str) (w : World) :
  get_structured_content decode html_parser url w
  = (match fetched_page decode html_parser url w with
     | None => empty_dict
     | Some soup =>
       match select_one main_selector soup with
       | None => empty_dict
       | Some main =>
         let lines := lines_of (stripped_region main) in
         {| s_title := Some (foldl classify_line ([], [], []) lines).1.1;
            s_source := Some (foldl classify_line ([], [], []) lines).1.2;
            s_urls := Some (hrefs (stripped_region main));
            s_content := Some (strip (join NEWLINE (clean_lines (provisional_body main)))) |}
       end
     end,
     set_requested (requested w ++ [url]) w).
Proof.
  unfold fetched_page, get_structured_content, eval, mbind, M_bind.
  rewrite safe_request_run. simpl.
  destruct (truthy _) as [r|]; simpl; [|done].
  destruct (select_one _ _) as [main|]; [|done].
  unfold provisional_body, stripped_region.
  by destruct (foldl classify_line _ _) as [[title source] body].
Qed.

End Extraction.

(** C5: for every post whose provisional body lines are header lines that
    carry the board or the time marker, followed by lines of which the
    first carries neither, the Content Extractor returns as content exactly
    the lines after the header, joined by single newlines; later lines
    that carry a marker are kept. *)
Theorem content_drops_leading_markers
    (decode : option str -> list N -> str) (html_parser : str -> list node)
    (url : str) (w : World) (soup : list node) (main : node)
    (header rest : list str) :
  fetched_page decode html_parser url w = Some soup ->
  select_one main_selector soup = Some main ->
  provisional_body main = header ++ rest ->
  Forall (fun l => has_marker l = true) header ->
  match rest with [] => True | l :: _ => has_marker l = false end ->
  s_content (eval (get_structured_content decode html_parser url) w)
  = Some (join NEWLINE rest).
Proof.
  intros Hpage Hmain Hbody Hh Hr. unfold eval.
  rewrite get_structured_content_run, Hpage, Hmain. simpl. f_equal.
  pose proof (provisional_body_solid main) as Hsolid.
  rewrite Hbody in *. rewrite clean_lines_header by done.
  apply strip_join_solid. by apply Forall_app in Hsolid as [_ ?].
Qed.

Lemma content_drops_leading_markers_witness :
  s_content (eval (get_structured_content (fun _ b => b) (fun _ => post_page sample_post)
                     (utf8 "https://www.ptt.cc/bbs/stock/M.1.html"))
               (world_of (response 200)))
  = Some (join NEWLINE [utf8 "first line"; utf8 "second 看板 line"; utf8 "third line"]).
Proof.
  apply (content_drops_leading_markers (fun _ b => b) (fun _ => post_page sample_post)
           (utf8 "https://www.ptt.cc/bbs/stock/M.1.html") (world_of (response 200))
           (post_page sample_post)
           (tag "div" [("id", "main-content")]%string sample_post)
           [utf8 "看板 Stock"; utf8 "時間 Mon Jan  1 12:00:00 2024"]).
  - reflexivity.
  - vm_compute. reflexivity.
  - vm_compute. reflexivity.
  - repeat constructor.
  - vm_compute. reflexivity.
Defined.

Section Links.

Lemma omap_filter_agree {A B} (P : A -> Prop) `{!forall x, Decision (P x)}
    (f g : A -> option B) (l : list A) :
  (forall x, P x -> f x = g x) -> (forall x, ~ P x -> g x = None) ->
  omap f (filter P l) = omap g l.
Proof.
  intros Hyes Hno. induction l as [|x l IH]; [done|].
  rewrite filter_cons. destruct (decide (P x)) as [HP|HP].
  - cbn. rewrite (Hyes x HP), IH. done.
  - cbn. rewrite (Hno x HP), IH. done.
Qed.

(** The link targets are those of the descendants, in document order. *)
Lemma hrefs_descendants (el : node) : hrefs el = omap link_target (descendants el).
Proof.
  unfold hrefs, find_all_with. apply omap_filter_agree.
  - intros [s|s|name attrs contents]; try done.
    unfold has_name_attr, link_target, getitem.
    intros [Hname Hattr%bool_decide_eq_true]%andb_prop.
    rewrite Hname. by destruct Hattr as [v ->].
  - intros [s|s|name attrs contents]; try done.
    unfold has_name_attr, link_target.
    intros Hnot. destruct (bool_decide (name = utf8 "a")) eqn:En; [|done].
    destruct (attrs !! utf8 "href") eqn:Ea; [|done].
    exfalso. by apply Hnot.
Qed.

Lemma omap_length_total {A B} (f : A -> option B) (l : list A) :
  Forall (fun x => is_Some (f x)) l -> length (omap f l) = length l.
Proof.
  induction 1 as [|x l [y Hy] _ IH]; [done|].
  cbn. rewrite Hy. simpl. by rewrite IH.
Qed.

Lemma hrefs_length (el : node) :
  length (hrefs el) = length (find_all_with (utf8 "a") (utf8 "href") el).
Proof.
  unfold hrefs. apply omap_length_total, Forall_forall.
  intros n [Hn _]%list_elem_of_filter.
  destruct n as [s|s|name attrs contents]; try done.
  unfold has_name_attr in Hn. unfold getitem.
  apply andb_prop in Hn as [_ [v ->]%bool_decide_eq_true]. by eexists.
Qed.

Lemma extract_children_none (names : list str) (name : str) (attrs : gmap str str)
    (contents : list node) :
  Forall (fun c => is_tag_named names c = false) contents ->
  extract_children names (Tag name attrs contents) = Tag name attrs contents.
Proof.
  intros Hall. simpl. f_equal.
  induction Hall as [|c cs Hc _ IH]; [done|].
  by rewrite filter_cons, decide_True, IH.
Qed.

End Links.

(** C6, as amended: for every post page, the urls field holds the link
    target of every anchor with a link target that is left in the content
    region once its direct [div] and [span] children are removed, in
    document order and with duplicates; a region with 3 such anchors gives
    3 urls.  The anchors of the original region are all there when the
    region has no direct [div] or [span] child. *)
Theorem urls_of_stripped_region
    (decode : option str -> list N -> str) (html_parser : str -> list node)
    (url : str) (w : World) (soup : list node) (main : node) :
  fetched_page decode html_parser url w = Some soup ->
  select_one main_selector soup = Some main ->
  s_urls (eval (get_structured_content decode html_parser url) w)
  = Some (omap link_target (descendants (stripped_region main)))
  /\ length (omap link_target (descendants (stripped_region main)))
     = length (find_all_with (utf8 "a") (utf8 "href") (stripped_region main))
  /\ (forall name attrs contents,
        main = Tag name attrs contents ->
        Forall (fun c => is_tag_named [utf8 "div"; utf8 "span"] c = false) contents ->
        s_urls (eval (get_structured_content decode html_parser url) w)
        = Some (omap link_target (descendants main))).
Proof.
  intros Hpage Hmain. unfold eval.
  rewrite get_structured_content_run, Hpage, Hmain. simpl.
  rewrite <- hrefs_descendants. split; [done|]. split; [apply hrefs_length|].
  intros name attrs contents -> Hall. unfold stripped_region.
  by rewrite extract_children_none, hrefs_descendants.
Qed.

Lemma urls_of_stripped_region_witness :
  s_urls (eval (get_structured_content (fun _ b => b)
                  (fun _ => post_page
                     [anchor "https://example.org/a"; text_node "and";
                      anchor "https://example.org/b"; anchor "https://example.org/a"])
                  (utf8 "https://www.ptt.cc/bbs/stock/M.1.html"))
            (world_of (response 200)))
  = Some [utf8 "https://example.org/a"; utf8 "https://example.org/b";
          utf8 "https://example.org/a"].
Proof.
  pose (contents := [anchor "https://example.org/a"; text_node "and";
                     anchor "https://example.org/b"; anchor "https://example.org/a"]).
  refine (eq_trans
    (proj2 (proj2 (urls_of_stripped_region (fun _ b => b)
             (fun _ => post_page contents)
             (utf8 "https://www.ptt.cc/bbs/stock/M.1.html") (world_of (response 200))
             (post_page contents) (tag "div" [("id", "main-content")]%string contents)
             ltac:(reflexivity) ltac:(vm_compute; reflexivity)))
             _ _ contents ltac:(reflexivity) ltac:(repeat constructor)) _).
  vm_compute. reflexivity.
Defined.

(** C6, as stated, fails at a post with three anchors, two of them inside
    a [span] and a [div] directly under the content region: the original
    region has three link targets, the urls field has one. *)
Lemma urls_miss_decorations_counterexample :
  let main := tag "div" [("id", "main-content")]%string linked_post in
  let result :=
    eval (get_structured_content (fun _ b => b) (fun _ => post_page linked_post)
            (utf8 "https://www.ptt.cc/bbs/stock/M.1.html"))
      (world_of (response 200)) in
  select_one main_selector (post_page linked_post) = Some main
  /\ hrefs main = [utf8 "https://example.org/a";
                   utf8 "https://www.ptt.cc/bbs/stock/M.1.html";
                   utf8 "https://example.org/a"]
  /\ s_urls result = Some [utf8 "https://example.org/a"].
Proof. repeat split; vm_compute; reflexivity. Qed.

(** ** The incremental persister *)

Section Persister.

Variable decode : option str -> list N -> str.
Variable html_parser : str -> list node.

Local Abbreviation extract := (get_structured_content decode html_parser).
Local Abbreviation crawl := (crawl_ptt_post_content decode html_parser).
Local Abbreviation crawl_row' := (crawl_row decode html_parser).

Implicit Types (w : World) (path : str) (row : Listing) (rows : list Listing).

(** What the extractor returns depends on the network alone. *)
Lemma extract_http (url : str) w w' :
  http w = http w' -> eval (extract url) w = eval (extract url) w'.
Proof.
  intros Hh. unfold eval. rewrite !get_structured_content_run. simpl.
  unfold fetched_page, eval. rewrite !safe_request_run. simpl. by rewrite Hh.
Qed.




Lemma omap_id_fmap {A B} (f : A -> option B) (l : list A) :
  omap id (f <$> l) = omap f l.
Proof.
  induction l as [|x l IH]; [done|].
  change (omap id (f <$> x :: l))
    with (match f x with
          | Some y => y :: omap id (f <$> l)
          | None => omap id (f <$> l)
          end).
  change (omap f (x :: l))
    with (match f x with Some y => y :: omap f l | None => omap f l end).
  by rewrite IH.
Qed.

(** One turn of the loop: a request, then an append unless it is refused. *)
Lemma crawl_row_run path row w :
  crawl_row' path row w
  = ((),
     let w1 := set_requested (requested w ++ [link row]) w in
     match write_errors w with
     | true :: rest => set_write_errors rest w1
     | rest =>
       set_write_errors (tail rest)
         (set_files
            (<[path := append_row (files w !! path)
                         (make_record row (eval (extract (link row)) w))]> (files w))
            w1)
     end).
Proof.
  unfold crawl_row, eval, mbind, M_bind.
  rewrite get_structured_content_run. simpl.
  unfold safe_write_csv, random_sleep, mret, M_ret. simpl.
  by destruct (write_errors w) as [|[] rest].
Qed.

Lemma for_each_cons {A} (f : A -> M unit) (x : A) (l : list A) w :
  exec (for_each f (x :: l)) w = exec (for_each f l) (exec (f x) w).
Proof.
  unfold exec. simpl. unfold mbind, M_bind. by destruct (f x w).
Qed.

(** The loop leaves the network as it is and requests the links of its
    rows, in order, whatever the disk does. *)
Lemma loop_requests path rows w :
  let w' := exec (for_each (crawl_row' path) rows) w in
  http w' = http w /\ data_dir w' = data_dir w
  /\ requested w' = requested w ++ (link <$> rows).
Proof.
  revert w. induction rows as [|row rows IH]; intros w.
  - simpl. by rewrite app_nil_r.
  - rewrite for_each_cons. cbv zeta in *.
    destruct (IH (exec (crawl_row' path row) w)) as (Hh & Hd & Hr).
    rewrite Hh, Hd, Hr. unfold exec. rewrite crawl_row_run. simpl.
    destruct (write_errors w) as [|[] ?]; simpl; rewrite <- app_assoc;
      (split; [|split]); done.
Qed.

Lemma table_rows_append path (fs : gmap str file) w (rec : Row) :
  fs = files w ->
  table_rows path (set_files (<[path := append_row (fs !! path) rec]> fs) w)
  = table_rows path w ++ [rec].
Proof.
  intros ->. unfold table_rows. simpl. rewrite lookup_insert_eq.
  by destruct (files w !! path) as [[rows|rows]|].
Qed.


Lemma load_existing_links_run path w :
  load_existing_links path w
  = (match files w !! path with
     | Some (Csv rows) => list_to_set (links_of rows)
     | _ => ∅
     end, w).
Proof.
  unfold load_existing_links, path_exists, read_link_column, mbind, M_bind.
  destruct (files w !! path) as [[rows|rows]|] eqn:E; simpl; rewrite ?E; try done.
  unfold mret, M_ret, links_of, dropna. do 2 f_equal.
  apply omap_id_fmap.
Qed.

(** The dedup set of a table that can be read holds the links of its
    rows. *)
Lemma existing_links_readable path w :
  readable path w ->
  eval (load_existing_links path) w = list_to_set (links_of (table_rows path w)).
Proof.
  unfold eval, readable, table_rows. rewrite load_existing_links_run. simpl.
  destruct (files w !! path) as [[rows|rows]|]; try done.
Qed.

Lemma rows_to_crawl_table rows (existing : gset str) :
  rows_to_crawl (Table rows) existing
  = Ok (Table (filter (fun r => link r ∉ existing) rows)).
Proof.
  unfold rows_to_crawl, invert, isin. simpl. rewrite !map_map.
  rewrite select_map_filter. do 2 f_equal.
  apply list_filter_iff. intros r.
  rewrite negb_true_iff, bool_decide_eq_false. done.
Qed.

(** The whole call: resolve the path, load the dedup set, crawl what is
    left. *)
Lemma crawl_run (filtered_data : DataFrame) (output_file : option str) w :
  let path := output_path output_file w in
  let existing := eval (load_existing_links path) w in
  crawl filtered_data output_file w
  = match filtered_data with
    | NoColumns => (Raise (KeyError (utf8 "link")), w)
    | Table rows =>
      (Ok (),
       exec (for_each (crawl_row' path) (filter (fun r => link r ∉ existing) rows)) w)
    end.
Proof.
  intros path existing.
  unfold crawl_ptt_post_content, mbind, M_bind.
  assert (Hpath :
    (match output_file with
     | None => get_data_path (CONFIG.BOARD_NAME ++ utf8 "_content.csv")
     | Some f => mret f
     end) w = (path, w)).
  { unfold path, output_path. by destruct output_file. }
  rewrite Hpath. unfold existing, eval.
  destruct (load_existing_links path w) as [ex w'] eqn:E.
  rewrite load_existing_links_run in E. injection E as <- <-. simpl.
  destruct filtered_data as [|rows]; [done|].
  rewrite rows_to_crawl_table. simpl. unfold exec.
  by destruct (for_each _ _ w).
Qed.

End Persister.

Section Idempotence.

Variable decode : option str -> list N -> str.
Variable html_parser : str -> list node.

Local Abbreviation extract := (get_structured_content decode html_parser).
Local Abbreviation crawl := (crawl_ptt_post_content decode html_parser).





(** A run requests exactly the links of its listings that the table does
    not hold yet. *)
Lemma crawl_requests (rows : list Listing) (output_file : option str) (w : World) :
  readable (output_path output_file w) w ->
  let path := output_path output_file w in
  requested (exec (crawl (Table rows) output_file) w)
  = requested w
    ++ (link <$> filter (fun r => link r ∉ (list_to_set (links_of (table_rows path w)) : gset str))
                   rows).
Proof.
  intros Hread path. unfold exec. rewrite crawl_run. simpl. fold path.
  rewrite (existing_links_readable path w Hread).
  by destruct (loop_requests decode html_parser path
                 (filter (fun r => link r ∉ (list_to_set (links_of (table_rows path w)) : gset str)) rows)
                 w) as (_ & _ & ->).
Qed.

Lemma extract_fails (url : str) (w : World) :
  fetched_page decode html_parser url w = None
  \/ (exists soup, fetched_page decode html_parser url w = Some soup
                   /\ select_one main_selector soup = None) ->
  eval (extract url) w = empty_dict.
Proof.
  unfold eval. rewrite get_structured_content_run. simpl.
  by intros [->|(soup & -> & ->)].
Qed.

End Idempotence.







(** A link that reads back as a missing value never enters the dedup set:
    the listing is requested and stored again by every run. *)
Example na_link_is_crawled_again :
  let row := {| title := utf8 "post"; date := utf8 "1/01";
                link := utf8 "NA"; nrec := utf8 "55" |} in
  let run := crawl_ptt_post_content (fun _ b => b) (fun _ => post_page sample_post)
               (Table [row]) None in
  let w := world_of (response 200) in
  let path := output_path None w in
  text_link (link row) = false
  /\ readable path (exec run w)
  /\ length (table_rows path (exec run w)) = 1%nat
  /\ length (table_rows path (exec run (exec run w))) = 2%nat
  /\ requested (exec run (exec run w)) = [utf8 "NA"; utf8 "NA"].
Proof. repeat split; vm_compute; reflexivity. Qed.

(** ** The listing scraper *)

Section ScraperFacts.

Variable decode : option str -> list N -> str.
Variable html_parser : str -> list node.

Lemma strip_idempotent (s : str) : strip (strip s) = strip s.
Proof.
  destruct (decide (strip s = [])) as [->|Hne]; [done|].
  by apply strip_solid, strip_is_solid.
Qed.

Lemma crawl_page_run (index : Z) (w : World) :
  crawl_page decode html_parser index w
  = (match fetched_page decode html_parser (page_url index) w with
     | None => Ok []
     | Some soup => entry_records (select_all (name_class "div" "r-ent") soup) []
     end,
     set_requested (requested w ++ [page_url index]) w).
Proof.
  unfold crawl_page, fetched_page, eval, mbind, M_bind.
  rewrite safe_request_run. simpl. by destruct (truthy _).
Qed.

Lemma entry_record_fields (div : node) (r : Listing) :
  entry_record div = Ok (Some r) ->
  well_formed r.
Proof.
  unfold entry_record.
  destruct (select_child _ _ div) as [t|]; [|done].
  destruct (select_child _ _ div) as [d|]; [|done].
  destruct (getitem t _) as [href|e]; [|done].
  intros [= <-]. unfold well_formed. simpl.
  split; [reflexivity|]. split; [apply strip_idempotent|].
  split; [apply strip_idempotent|].
  destruct (select_one_below _ div); [apply strip_idempotent|done].
Qed.

Lemma entry_record_error (div : node) (e : exn) :
  entry_record div = Raise e ->
  exists anchor,
    select_child (name_class "div" "title") (name_only "a") div = Some anchor
    /\ getitem anchor (utf8 "href") = Raise e.
Proof.
  unfold entry_record.
  destruct (select_child _ _ div) as [t|]; [|done].
  destruct (select_child _ _ div) as [d|]; [|done].
  destruct (getitem t _) as [href|e'] eqn:E; [done|].
  intros [= <-]. by exists t.
Qed.

Lemma getitem_error (n : node) (attr : str) (e : exn) :
  getitem n attr = Raise e -> e = KeyError attr.
Proof.
  destruct n as [s|s|name attrs contents]; simpl; try by intros [= <-].
  destruct (attrs !! attr); [done|]. by intros [= <-].
Qed.

(** The loop adds, in order, at most one well-formed record per entry. *)
Lemma entry_records_ok (divs : list node) :
  forall (records all : list Listing),
    entry_records divs records = Ok all ->
    exists new,
      all = records ++ new /\ Forall well_formed new
      /\ (length new <= length divs)%nat.
Proof.
  induction divs as [|div divs IH]; intros records all; simpl.
  - intros [= <-]. exists []. by rewrite app_nil_r.
  - destruct (entry_record div) as [[r|]|e] eqn:E; [| |done]; intros Hall.
    + destruct (IH _ _ Hall) as (new & -> & Hnew & Hlen).
      exists (r :: new). rewrite <- app_assoc. split; [done|].
      split; [|simpl; lia]. constructor; [|done]. by apply (entry_record_fields div).
    + destruct (IH _ _ Hall) as (new & -> & Hnew & Hlen).
      exists new. split; [done|]. split; [done|]. lia.
Qed.

Lemma entry_records_error (divs : list node) :
  forall (records : list Listing) (e : exn),
    entry_records divs records = Raise e ->
    exists div, div ∈ divs /\ entry_record div = Raise e.
Proof.
  induction divs as [|div divs IH]; intros records e; simpl; [done|].
  destruct (entry_record div) as [[r|]|e'] eqn:E.
  - intros Hall. destruct (IH _ _ Hall) as (d & Hd & He).
    exists d. split; [by apply list_elem_of_further|done].
  - intros Hall. destruct (IH _ _ Hall) as (d & Hd & He).
    exists d. split; [by apply list_elem_of_further|done].
  - intros [= <-]. exists div. split; [apply list_elem_of_here|done].
Qed.

(** What a page delivers depends on the network alone. *)
Lemma crawl_page_http (index : Z) (w w' : World) :
  http w = http w' ->
  eval (crawl_page decode html_parser index) w
  = eval (crawl_page decode html_parser index) w'.
Proof.
  intros Hh. unfold eval. rewrite !crawl_page_run. simpl.
  unfold fetched_page, eval. rewrite !safe_request_run. simpl. by rewrite Hh.
Qed.

Lemma crawl_page_ok (index : Z) (w : World) (records : list Listing) :
  eval (crawl_page decode html_parser index) w = Ok records ->
  Forall well_formed records
  /\ forall soup,
       fetched_page decode html_parser (page_url index) w = Some soup ->
       (length records <= length (select_all (name_class "div" "r-ent") soup))%nat.
Proof.
  unfold eval. rewrite crawl_page_run. simpl.
  destruct (fetched_page _ _ _ w) as [soup|].
  - intros Hok. destruct (entry_records_ok _ _ _ Hok) as (new & -> & Hnew & Hlen).
    split; [done|]. by intros _ [= <-].
  - intros [= <-]. split; [constructor|done].
Qed.

(** A page that delivers records has no entry that raises. *)
Lemma entry_records_no_error (divs : list node) :
  forall (records all : list Listing),
    entry_records divs records = Ok all ->
    forall div, div ∈ divs -> forall e, entry_record div <> Raise e.
Proof.
  induction divs as [|d divs IH]; intros records all Hok div Hin e.
  - by apply elem_of_nil in Hin.
  - simpl in Hok. apply elem_of_cons in Hin as [->|Hin].
    + by destruct (entry_record d) as [[r|]|e'].
    + destruct (entry_record d) as [[r|]|e']; [| |done]; by eapply IH.
Qed.

End ScraperFacts.

(** X1: a page that cannot be fetched (the request raises, or the response
    is false) contributes no record and no error, and costs the one request
    of its address. *)
Theorem crawl_page_unreachable
    (decode : option str -> list N -> str) (html_parser : str -> list node)
    (index : Z) (w : World) :
  fetched_page decode html_parser (page_url index) w = None ->
  crawl_page decode html_parser index w
  = (Ok [], set_requested (requested w ++ [page_url index]) w).
Proof. intros Hpage. by rewrite crawl_page_run, Hpage. Qed.

Lemma crawl_page_unreachable_witness :
  crawl_page (fun _ b => b) (fun _ => listing_page) 8 (world_of (response 503))
  = (Ok [], set_requested [page_url 8] (world_of (response 503))).
Proof.
  apply (crawl_page_unreachable (fun _ b => b) (fun _ => listing_page) 8
           (world_of (response 503))).
  reflexivity.
Defined.

(** X2: every record a page delivers has a link that starts with BASE_URL
    and a title, a date and a popularity token without blanks around them;
    there are at most as many records as entries on the page. *)
Theorem crawl_page_records
    (decode : option str -> list N -> str) (html_parser : str -> list node)
    (index : Z) (w : World) (records : list Listing) :
  eval (crawl_page decode html_parser index) w = Ok records ->
  Forall well_formed records
  /\ forall soup,
       fetched_page decode html_parser (page_url index) w = Some soup ->
       (length records <= length (select_all (name_class "div" "r-ent") soup))%nat.
Proof. apply crawl_page_ok. Qed.

Lemma crawl_page_records_witness :
  Forall well_formed
    [ {| title := utf8 "first"; date := utf8 "1/01";
         link := utf8 "https://www.ptt.cc/bbs/stock/M.1.html"; nrec := utf8 "爆" |};
      {| title := utf8 "second"; date := utf8 "1/02";
         link := utf8 "https://www.ptt.cc/bbs/stock/M.2.html"; nrec := utf8 "" |};
      {| title := utf8 "third"; date := utf8 "1/02";
         link := utf8 "https://www.ptt.cc/bbs/stock/M.3.html"; nrec := utf8 "55" |} ].
Proof.
  apply (crawl_page_records (fun _ b => b) (fun _ => listing_page) 8
           (world_of (response 200))).
  vm_compute. reflexivity.
Defined.

(** X3: a page that is fetched and has an entry with a date and with a
    title anchor that carries no href attribute makes the page scraper
    raise KeyError href, whatever the other entries are: no record of the
    page is returned. *)
Theorem crawl_page_error
    (decode : option str -> list N -> str) (html_parser : str -> list node)
    (index : Z) (w : World) (soup : list node) (div date_tag : node)
    (name : str) (attrs : gmap str str) (contents : list node) :
  fetched_page decode html_parser (page_url index) w = Some soup ->
  div ∈ select_all (name_class "div" "r-ent") soup ->
  select_child (name_class "div" "title") (name_only "a") div
  = Some (Tag name attrs contents) ->
  select_child (name_class "div" "meta") (name_class "div" "date") div = Some date_tag ->
  attrs !! utf8 "href" = None ->
  eval (crawl_page decode html_parser index) w = Raise (KeyError (utf8 "href")).
Proof.
  intros Hpage Hdiv Ha Hd Hno. unfold eval. rewrite crawl_page_run, Hpage. simpl.
  assert (Hrec : entry_record div = Raise (KeyError (utf8 "href"))).
  { unfold entry_record. rewrite Ha, Hd. simpl. by rewrite Hno. }
  destruct (entry_records _ []) as [all|e] eqn:E.
  - exfalso. by apply (entry_records_no_error _ _ _ E div Hdiv (KeyError (utf8 "href"))).
  - destruct (entry_records_error _ _ _ E) as (d & _ & Hd').
    destruct (entry_record_error _ _ Hd') as (a & _ & He).
    by apply getitem_error in He as ->.
Qed.

Lemma crawl_page_error_witness :
  eval (crawl_page (fun _ b => b) (fun _ => broken_page) 8) (world_of (response 200))
  = Raise (KeyError (utf8 "href")).
Proof.
  apply (crawl_page_error (fun _ b => b) (fun _ => broken_page) 8
           (world_of (response 200)) broken_page
           (tag "div" [("class", "r-ent")]
              [tag "div" [("class", "title")] [tag "a" [] [text_node "no target"]];
               tag "div" [("class", "meta")]
                 [tag "div" [("class", "date")] [text_node " 1/01"]]])%string
           (tag "div" [("class", "date")]%string [text_node " 1/01"])
           (utf8 "a") ∅ [text_node "no target"]).
  - reflexivity.
  - vm_compute. apply list_elem_of_further, list_elem_of_here.
  - vm_compute. reflexivity.
  - vm_compute. reflexivity.
  - reflexivity.
Defined.

(** ** The orchestrator *)

Section OrchestratorFacts.

Variable decode : option str -> list N -> str.
Variable html_parser : str -> list node.

Lemma get_latest_index_exec (board_url : option str) (w : World) :
  exec (get_latest_index decode html_parser board_url) w
  = set_requested (requested w ++ [or_str board_url CONFIG.BOARD_URL]) w.
Proof.
  unfold get_latest_index, exec, mbind, M_bind.
  rewrite safe_request_run. simpl.
  destruct (truthy _) as [r|]; [|done].
  destruct (select_one _ _) as [prev|]; [|done].
  destruct (getitem prev _) as [href|e]; [|done].
  destruct (search_index href) as [group1|]; [|done].
  by destruct (int group1).
Qed.

Lemma iterrows_DataFrame_of (records : list Listing) :
  iterrows (DataFrame_of records) = records.
Proof. by destruct records. Qed.

(** The walk over the pages: it requests the pages in turn until one
    raises, and gathers the records of the pages in that order. *)
Lemma crawl_pages_run (pages : list Z) :
  forall (all_articles : list Listing) (w : World),
    match eval (crawl_pages decode html_parser pages all_articles) w with
    | Ok all =>
      exec (crawl_pages decode html_parser pages all_articles) w
      = set_requested (requested w ++ (page_url <$> pages)) w
      /\ exists records,
           Forall2 (fun p r => eval (crawl_page decode html_parser p) w = Ok r)
             pages records
           /\ all = all_articles ++ concat records
    | Raise e =>
      exists done_pages p rest,
        pages = done_pages ++ p :: rest
        /\ eval (crawl_page decode html_parser p) w = Raise e
        /\ exec (crawl_pages decode html_parser pages all_articles) w
           = set_requested (requested w ++ (page_url <$> done_pages ++ [p])) w
    end.
Proof.
  induction pages as [|p pages IH]; intros acc w.
  - simpl. split; [by rewrite app_nil_r; destruct w|].
    exists []. split; [constructor|]. by rewrite app_nil_r.
  - unfold eval, exec. simpl. unfold mbind, M_bind.
    rewrite crawl_page_run. simpl.
    set (w1 := set_requested (requested w ++ [page_url p]) w).
    assert (Hp : eval (crawl_page decode html_parser p) w
                 = match fetched_page decode html_parser (page_url p) w with
                   | Some soup => entry_records (select_all (name_class "div" "r-ent") soup) []
                   | None => Ok []
                   end).
    { unfold eval. by rewrite crawl_page_run. }
    destruct (match fetched_page decode html_parser (page_url p) w with
              | Some soup => _ | None => _ end) as [recs|e] eqn:E.
    + specialize (IH (acc ++ recs) w1). unfold eval, exec in IH.
      unfold random_sleep, mret, M_ret. simpl.
      destruct (crawl_pages decode html_parser pages (acc ++ recs) w1) as [res w2].
      simpl in *. destruct res as [all|e].
      * destruct IH as (-> & records & Hrec & ->). split.
        { unfold w1. simpl. by rewrite <- app_assoc. }
        exists (recs :: records). split.
        { constructor; [done|]. eapply Forall2_impl; [exact Hrec|].
          intros q r Hq. simpl in Hq. rewrite <- Hq. by apply crawl_page_http. }
        simpl. by rewrite app_assoc.
      * destruct IH as (dp & q & rest & -> & Hq & ->).
        exists (p :: dp), q, rest. split; [done|]. split.
        { rewrite <- Hq. by apply crawl_page_http. }
        unfold w1. simpl. by rewrite <- app_assoc.
    + exists [], p, pages. split; [done|]. split; [done|]. done.
Qed.

End OrchestratorFacts.

(** X4: when the newest index cannot be resolved, the orchestrator returns
    the frame without columns, after the one request of the board page. *)
Theorem crawl_posts_unresolved
    (decode : option str -> list N -> str) (html_parser : str -> list node)
    (num_pages : Z) (w : World) :
  eval (get_latest_index decode html_parser None) w = Ok None ->
  crawl_posts decode html_parser num_pages w
  = (Ok NoColumns, set_requested (requested w ++ [CONFIG.BOARD_URL]) w).
Proof.
  intros Hnone. unfold crawl_posts, mbind, M_bind.
  pose proof (get_latest_index_exec decode html_parser None w) as Hexec.
  unfold eval in Hnone. unfold exec in Hexec.
  destruct (get_latest_index decode html_parser None w) as [res w1].
  simpl in *. by subst.
Qed.

Lemma crawl_posts_unresolved_witness :
  crawl_posts (fun _ b => b) (fun _ => listing_page) 5 (world_of (response 404))
  = (Ok NoColumns, set_requested [CONFIG.BOARD_URL] (world_of (response 404))).
Proof.
  apply (crawl_posts_unresolved (fun _ b => b) (fun _ => listing_page) 5
           (world_of (response 404))).
  vm_compute. reflexivity.
Defined.

(** X5: when the newest index is [latest] and no page raises, the
    orchestrator requests the board page and then the pages latest,
    latest - 1, ... (num_pages of them, none for num_pages <= 0), in that
    order; its frame holds the records of these pages in that order, all of
    them well formed, and is the frame without columns when there is no
    record. *)
Theorem crawl_posts_walks_back
    (decode : option str -> list N -> str) (html_parser : str -> list node)
    (num_pages latest : Z) (w : World) (df : DataFrame) :
  eval (get_latest_index decode html_parser None) w = Ok (Some latest) ->
  eval (crawl_posts decode html_parser num_pages) w = Ok df ->
  exec (crawl_posts decode html_parser num_pages) w
  = set_requested
      (requested w ++ CONFIG.BOARD_URL :: (page_url <$> range_down latest num_pages)) w
  /\ length (range_down latest num_pages) = Z.to_nat num_pages
  /\ (exists records,
        Forall2 (fun p r => eval (crawl_page decode html_parser p) w = Ok r)
          (range_down latest num_pages) records
        /\ df = DataFrame_of (concat records))
  /\ Forall well_formed (iterrows df).
Proof.
  intros Hlatest Hdf.
  pose proof (get_latest_index_exec decode html_parser None w) as Hexec.
  unfold eval, exec, crawl_posts, mbind, M_bind in *.
  destruct (get_latest_index decode html_parser None w) as [res w1].
  simpl in *. subst res w1.
  set (w1 := set_requested (requested w ++ [CONFIG.BOARD_URL]) w) in *.
  pose proof (crawl_pages_run decode html_parser (range_down latest num_pages) [] w1)
    as Hrun.
  unfold eval, exec in Hrun.
  destruct (crawl_pages decode html_parser (range_down latest num_pages) [] w1)
    as [res w2].
  simpl in *. destruct res as [all|e]; [|done].
  injection Hdf as <-. destruct Hrun as (-> & records & Hrec & ->).
  assert (Hrec' : Forall2 (fun p r => (crawl_page decode html_parser p w).1 = Ok r)
                    (range_down latest num_pages) records).
  { eapply Forall2_impl; [exact Hrec|]. intros q r Hq. simpl in Hq.
    rewrite <- Hq. by apply (crawl_page_http decode html_parser q w w1). }
  split; [unfold w1; simpl; by rewrite <- app_assoc|].
  split; [unfold range_down; by rewrite length_fmap, length_seq|].
  split; [by exists records|].
  rewrite iterrows_DataFrame_of. simpl.
  clear Hrec. induction Hrec' as [|q r qs rs Hq _ IH]; [constructor|].
  simpl. apply Forall_app. split; [|exact IH].
  by apply (crawl_page_ok decode html_parser q w r).
Qed.

Lemma crawl_posts_walks_back_witness :
  requested (exec (crawl_posts (fun _ b => b) (fun _ => listing_page) 2)
               (world_of (response 200)))
  = [CONFIG.BOARD_URL; page_url 8; page_url 7].
Proof.
  pose (w := world_of (response 200)).
  pose (run := crawl_posts (fun _ b => b) (fun _ => listing_page) 2).
  pose (df := match eval run w with Ok d => d | Raise _ => NoColumns end).
  change (requested (exec run w) = [CONFIG.BOARD_URL; page_url 8; page_url 7]).
  refine (eq_trans
    (f_equal requested
       (proj1 (crawl_posts_walks_back (fun _ b => b) (fun _ => listing_page) 2 8 w df
                 ltac:(vm_compute; reflexivity) ltac:(vm_compute; reflexivity)))) _).
  reflexivity.
Defined.

(** ** Addresses, scores and dumps *)

Section Composition.

Lemma page_url_index (k : Z) :
  page_url k
  = utf8 "https://www.ptt.cc/bbs/stock/" ++ utf8 "index" ++ str_of_int k
    ++ utf8 ".html" ++ [].
Proof. unfold page_url. rewrite app_nil_r. reflexivity. Qed.

Lemma str_of_int_inj (a b : Z) : str_of_int a = str_of_int b -> a = b.
Proof.
  intros Heq. pose proof (to_numeric_text_str_of_int a) as Ha.
  rewrite Heq, to_numeric_text_str_of_int in Ha. by injection Ha.
Qed.


End Composition.

(** X6: the address the scraper builds for page [k] reads back, under the
    pattern of the resolver, as [k]: a paging link to that address resolves
    to [k + 1]. *)
Theorem page_url_round_trip (k : Z) :
  0 <= k ->
  search_index (page_url k) = Some (str_of_int k)
  /\ (fun group1 => int_of_digits group1 + 1) <$> search_index (page_url k)
     = Some (k + 1).
Proof.
  intros Hk. destruct (str_of_int_decimal k Hk) as (Hne & Hds & Hval).
  assert (Hsearch : search_index (page_url k) = Some (str_of_int k)).
  { rewrite page_url_index. apply search_index_first; [done|done|].
    vm_compute. reflexivity. }
  split; [done|]. rewrite Hsearch. simpl. by rewrite Hval.
Qed.

Lemma page_url_round_trip_witness :
  search_index (page_url 4012) = Some (utf8 "4012").
Proof.
  apply (proj1 (page_url_round_trip 4012 ltac:(lia))).
Defined.

(** X7: on a collection with the listing columns and plain tokens, and
    at a threshold in force of fewer than 16 digits, filtering twice is
    filtering once: the frame the filter returns passes it unchanged, and
    its tokens are plain again. *)
Theorem process_recommendations_idempotent
    (rows : list Listing) (filtered : DataFrame) (threshold : option Z) :
  Forall (fun r => plain_token (nrec r) = true) rows ->
  safe_int (or_int threshold CONFIG.DEFAULT_THRESHOLD) = true ->
  process_recommendations (Table rows) threshold = Ok filtered ->
  process_recommendations filtered threshold = Ok filtered
  /\ Forall (fun r => plain_token (nrec r) = true) (iterrows filtered).
Proof.
  intros Hplain _. rewrite process_recommendations_plain by done. intros [= <-].
  assert (Hkept : Forall (fun r => plain_token (nrec r) = true)
                    (filter (fun r => or_int threshold CONFIG.DEFAULT_THRESHOLD
                                      <= spec_score (nrec r)) rows)).
  { apply Forall_forall. intros r [_ Hin]%list_elem_of_filter.
    by apply (proj1 (Forall_forall _ _) Hplain). }
  split; [|exact Hkept].
  rewrite process_recommendations_plain by done. do 2 f_equal.
  rewrite list_filter_filter. apply list_filter_iff. intros r. tauto.
Qed.

Lemma process_recommendations_idempotent_witness :
  process_recommendations (Table (listing_of_nrec <$> [utf8 "爆"; utf8 "55"])) (Some 50)
  = Ok (Table (listing_of_nrec <$> [utf8 "爆"; utf8 "55"])).
Proof.
  apply (process_recommendations_idempotent
           (listing_of_nrec <$> [utf8 "10"; utf8 "爆"; utf8 "X"; utf8 "55"])
           (Table (listing_of_nrec <$> [utf8 "爆"; utf8 "55"])) (Some 50)).
  - repeat constructor.
  - reflexivity.
  - vm_compute. reflexivity.
Defined.



(** ** The persister and the script, in any world *)

Section PipelineFacts.

Variable decode : option str -> list N -> str.
Variable html_parser : str -> list node.

Local Abbreviation extract := (get_structured_content decode html_parser).
Local Abbreviation crawl := (crawl_ptt_post_content decode html_parser).
Local Abbreviation crawl_row' := (crawl_row decode html_parser).

(** The loop appends the rows that are accepted, uses up one entry of
    [write_errors] per row, and touches neither the dumps nor another
    file. *)
Lemma loop_effect (path : str) (rows : list Listing) :
  forall w : World,
    let w' := exec (for_each (crawl_row' path) rows) w in
    table_rows path w'
    = table_rows path w
      ++ ((fun row => make_record row (eval (extract (link row)) w))
            <$> accepted (write_errors w) rows)
    /\ write_errors w' = drop (length rows) (write_errors w)
    /\ dumps w' = dumps w
    /\ forall p, p <> path -> files w' !! p = files w !! p.
Proof.
  induction rows as [|row rows IH]; intros w.
  - simpl. by rewrite app_nil_r, drop_0.
  - rewrite for_each_cons. cbv zeta in *.
    set (w1 := exec (crawl_row' path row) w).
    destruct (IH w1) as (Hrows & Herr & Hdumps & Hfiles).
    assert (Hhttp : http w1 = http w).
    { unfold w1, exec. rewrite crawl_row_run. simpl.
      by destruct (write_errors w) as [|[] ?]. }
    assert (Hext : forall l : list Listing,
               (fun r => make_record r (eval (extract (link r)) w1)) <$> l
               = (fun r => make_record r (eval (extract (link r)) w)) <$> l).
    { intros l. apply list_fmap_ext. intros _ r _. f_equal.
      by apply extract_http. }
    rewrite Hrows, Herr, Hdumps, Hext. clear Hrows Herr Hdumps Hext IH.
    unfold w1, exec in *. rewrite crawl_row_run in *. simpl in *.
    destruct (write_errors w) as [|[] rest] eqn:E; simpl.
    + split; [|split; [by rewrite drop_nil|split; [done|]]].
      * unfold table_rows. simpl. rewrite lookup_insert_eq.
        destruct (files w !! path) as [[old|old]|]; simpl;
          by rewrite <- ?app_assoc.
      * intros p Hp. rewrite Hfiles by done. simpl. by rewrite lookup_insert_ne.
    + split; [done|]. split; [done|]. split; [done|].
      intros p Hp. by rewrite Hfiles.
    + split; [|split; [done|split; [done|]]].
      * unfold table_rows. simpl. rewrite lookup_insert_eq.
        destruct (files w !! path) as [[old|old]|]; simpl;
          by rewrite <- ?app_assoc.
      * intros p Hp. rewrite Hfiles by done. simpl. by rewrite lookup_insert_ne.
Qed.

(** The rows a call works on: those whose link the table, as the call can
    read it, does not hold. *)
Lemma crawl_effect (rows : list Listing) (output_file : option str) (w : World) :
  let path := output_path output_file w in
  let todo := filter (fun r => link r ∉ eval (load_existing_links path) w) rows in
  let w' := exec (crawl (Table rows) output_file) w in
  table_rows path w'
  = table_rows path w
    ++ ((fun row => make_record row (eval (extract (link row)) w))
          <$> accepted (write_errors w) todo)
  /\ requested w' = requested w ++ (link <$> todo)
  /\ write_errors w' = drop (length todo) (write_errors w)
  /\ dumps w' = dumps w /\ http w' = http w /\ data_dir w' = data_dir w
  /\ forall p, p <> path -> files w' !! p = files w !! p.
Proof.
  intros path todo w'. unfold w', exec. rewrite crawl_run. simpl.
  fold path. fold todo.
  destruct (loop_effect path todo w) as (Hrows & Herr & Hdumps & Hfiles).
  destruct (loop_requests decode html_parser path todo w) as (Hh & Hd & Hr).
  done.
Qed.

Lemma accepted_sublist {A} (rows : list A) :
  forall errors, sublist (accepted errors rows) rows.
Proof.
  induction rows as [|r rows IH]; intros errors; simpl; [constructor|].
  destruct errors as [|[] errors]; by constructor.
Qed.

(** The orchestrator changes nothing but the request log. *)
Lemma crawl_posts_exec (num_pages : Z) (w : World) :
  exists pages,
    exec (crawl_posts decode html_parser num_pages) w
    = set_requested (requested w ++ CONFIG.BOARD_URL :: (page_url <$> pages)) w.
Proof.
  pose proof (get_latest_index_exec decode html_parser None w) as Hexec.
  unfold exec, crawl_posts, mbind, M_bind in *.
  destruct (get_latest_index decode html_parser None w) as [res w1].
  simpl in *. subst w1.
  destruct res as [[latest|]|e]; try by exists [].
  set (w1 := set_requested (requested w ++ [CONFIG.BOARD_URL]) w).
  pose proof (crawl_pages_run decode html_parser (range_down latest num_pages) [] w1)
    as Hrun.
  unfold eval, exec in Hrun.
  destruct (crawl_pages decode html_parser (range_down latest num_pages) [] w1)
    as [res w2].
  simpl in *. destruct res as [all|e].
  - destruct Hrun as (-> & _). exists (range_down latest num_pages).
    unfold w1. simpl. by rewrite <- app_assoc.
  - destruct Hrun as (dp & p & rest & _ & _ & ->). exists (dp ++ [p]).
    unfold w1. simpl. by rewrite <- app_assoc.
Qed.

(** A run of decimal characters stands for a number that is not
    negative. *)
Lemma horner_nonneg (ds : list Z) :
  Forall (fun d => 0 <= d) ds -> forall acc, 0 <= acc ->
  0 <= foldl (fun acc d => 10 * acc + d) acc ds.
Proof.
  induction 1 as [|d ds Hd _ IH]; intros acc Hacc; simpl; [done|].
  apply IH. lia.
Qed.

Lemma int_of_digits_nonneg (s : str) : 0 <= int_of_digits s.
Proof.
  unfold int_of_digits, horner. apply horner_nonneg; [|lia].
  apply Forall_forall. intros d (c & _ & Hc)%list_elem_of_omap.
  unfold decimal_value in Hc. destruct (find _ _); [|done].
  injection Hc as <-. lia.
Qed.


(** Every record of the frame of the orchestrator is well formed. *)
Lemma crawl_posts_rows (num_pages : Z) (w : World) (df : DataFrame) :
  eval (crawl_posts decode html_parser num_pages) w = Ok df ->
  Forall well_formed (iterrows df).
Proof.
  unfold eval, crawl_posts, mbind, M_bind.
  destruct (get_latest_index decode html_parser None w) as [res w1].
  destruct res as [[latest|]|e]; simpl; [|by intros [= <-]|done].
  pose proof (crawl_pages_run decode html_parser (range_down latest num_pages) [] w1)
    as Hrun.
  unfold eval, exec in Hrun.
  destruct (crawl_pages decode html_parser (range_down latest num_pages) [] w1)
    as [res w2].
  simpl in *. destruct res as [all|e]; [|done].
  intros [= <-]. destruct Hrun as (_ & records & Hrec & ->).
  rewrite iterrows_DataFrame_of. simpl.
  induction Hrec as [|q r qs rs Hq _ IH]; [constructor|].
  simpl. apply Forall_app. split; [|exact IH].
  by apply (crawl_page_ok decode html_parser q w1 r).
Qed.

Lemma process_and_save_data_run (df : DataFrame) (threshold : option Z)
    (filename : option str) (w : World) :
  let t := or_int threshold CONFIG.DEFAULT_THRESHOLD in
  let path := match filename with
              | None => above_path t w
              | Some f => os_path_join (data_dir w) f
              end in
  process_and_save_data df threshold filename w
  = match process_recommendations df threshold with
    | Raise e => (Raise e, w)
    | Ok filtered => (Ok filtered, set_dumps (<[path := filtered]> (dumps w)) w)
    end.
Proof.
  intros t path. unfold process_and_save_data. fold t.
  assert (Hsame : process_recommendations df (Some t)
                  = process_recommendations df threshold).
  { destruct df as [|rows]; [done|]. rewrite !process_recommendations_table.
    replace (or_int (Some t) CONFIG.DEFAULT_THRESHOLD) with t; [done|].
    unfold t, or_int. destruct threshold as [x|]; [|done].
    destruct (decide (x = 0)) as [->|Hx]; [done|]. by destruct x. }
  rewrite Hsame. destruct (process_recommendations df threshold) as [filtered|e]; [|done].
  unfold path, above_path. by destruct filename.
Qed.

(** A name that is not absolute goes under the directory, and different
    names give different paths. *)
Lemma os_path_join_inj (a b1 b2 : str) :
  startswith (utf8 "/") b1 = false -> startswith (utf8 "/") b2 = false ->
  os_path_join a b1 = os_path_join a b2 -> b1 = b2.
Proof.
  unfold os_path_join. intros -> ->.
  destruct (last a) as [c|]; [|done].
  destruct (c =? 47)%N; intros Heq.
  - by apply app_inv_head in Heq.
  - by do 2 apply app_inv_head in Heq.
Qed.

(** The script, step by step. *)
Lemma main_run (w : World) :
  main decode html_parser w
  = let w1 := exec (crawl_posts decode html_parser 10) w in
    match eval (crawl_posts decode html_parser 10) w with
    | Raise e => (Raise e, w1)
    | Ok data =>
      let w2 := set_dumps (<[raw_path w := data]> (dumps w)) w1 in
      match process_recommendations data None with
      | Raise e => (Raise e, w2)
      | Ok popular =>
        crawl popular None
          (set_dumps (<[above_path 40 w := popular]> (dumps w2)) w2)
      end
    end.
Proof.
  destruct (crawl_posts_exec 10 w) as (pages & Hexec).
  unfold main, eval, exec, mbind, M_bind in *.
  destruct (crawl_posts decode html_parser 10 w) as [data w1].
  simpl in *. subst w1. destruct data as [data|e]; [|done].
  unfold get_data_path, to_csv. simpl.
  rewrite process_and_save_data_run.
  by destruct (process_recommendations data None).
Qed.

End PipelineFacts.

(** X9: in any world, a run of the persister on a table of listings works
    on the listings whose link the content table, as the run can read it,
    does not hold.  It requests the link of each of them, in order, also
    when the append is refused; it appends the rows that are accepted, in
    order, and uses up one entry of the refusals per listing; it touches
    neither a dump nor a file at another path. *)
Theorem crawl_appends_accepted
    (decode : option str -> list N -> str) (html_parser : str -> list node)
    (rows : list Listing) (output_file : option str) (w : World) :
  let path := output_path output_file w in
  let todo := filter (fun r => link r ∉ eval (load_existing_links path) w) rows in
  let w' := exec (crawl_ptt_post_content decode html_parser (Table rows) output_file) w in
  table_rows path w'
  = table_rows path w
    ++ ((fun row => make_record row
                      (eval (get_structured_content decode html_parser (link row)) w))
          <$> accepted (write_errors w) todo)
  /\ requested w' = requested w ++ (link <$> todo)
  /\ write_errors w' = drop (length todo) (write_errors w)
  /\ http w' = http w /\ data_dir w' = data_dir w
  /\ forall p, p <> path ->
       files w' !! p = files w !! p /\ dumps w' !! p = dumps w !! p.
Proof.
  intros path todo w'.
  destruct (crawl_effect decode html_parser rows output_file w)
    as (Htable & Hreq & Herr & Hdumps & Hhttp & Hdir & Hfiles).
  fold path todo w' in Htable, Hreq, Herr, Hdumps, Hhttp, Hdir, Hfiles.
  split; [done|]. split; [done|]. split; [done|]. split; [done|]. split; [done|].
  intros p Hp. split; [by apply Hfiles|by rewrite Hdumps].
Qed.

(** A refused append loses the row, not the request: of two listings with
    the first append refused, both are requested and the second is stored. *)
Example crawl_refused_append :
  let data := Table [listing_at "/bbs/stock/M.1.html" "55";
                     listing_at "/bbs/stock/M.2.html" "爆"] in
  let w := set_write_errors [true] (world_of (response 200)) in
  let w' := exec (crawl_ptt_post_content (fun _ b => b) (fun _ => post_page sample_post)
                    data None) w in
  links_of (table_rows (output_path None w) w')
  = [utf8 "https://www.ptt.cc/bbs/stock/M.2.html"]
  /\ requested w' = [utf8 "https://www.ptt.cc/bbs/stock/M.1.html";
                     utf8 "https://www.ptt.cc/bbs/stock/M.2.html"].
Proof. split; vm_compute; reflexivity. Qed.


(** X11: with the default file name, [process_and_save_data] writes one
    dump, the frame it returns, which is what the filter returns at the same
    threshold; the dump goes to the name made of the threshold in force
    under the data directory; nothing is requested and no file at another
    path changes.  On the frame without columns it raises KeyError nrec
    and leaves the world as it is. *)
Theorem process_and_save_data_dumps_result
    (df : DataFrame) (threshold : option Z) (w : World) :
  let run := process_and_save_data df threshold None in
  let path := above_path (or_int threshold CONFIG.DEFAULT_THRESHOLD) w in
  (df = NoColumns -> run w = (Raise (KeyError (utf8 "nrec")), w))
  /\ (forall filtered,
        process_recommendations df threshold = Ok filtered ->
        eval run w = Ok filtered
        /\ dumps (exec run w) = <[path := filtered]> (dumps w)
        /\ requested (exec run w) = requested w
        /\ forall p, p <> path -> files (exec run w) !! p = files w !! p).
Proof.
  intros run path. unfold run, eval, exec.
  rewrite process_and_save_data_run. split.
  - by intros ->.
  - by intros filtered ->.
Qed.

Lemma process_and_save_data_dumps_result_witness :
  let df := Table (listing_of_nrec <$> [utf8 "10"; utf8 "55"]) in
  eval (process_and_save_data df None None) (world_of (response 200))
  = Ok (Table (listing_of_nrec <$> [utf8 "55"])).
Proof.
  intros df.
  pose (filtered := Table (listing_of_nrec <$> [utf8 "55"])).
  assert (H : process_recommendations df None = Ok filtered) by (vm_compute; reflexivity).
  exact (proj1 (proj2 (process_and_save_data_dumps_result df None
                         (world_of (response 200))) filtered H)).
Defined.

(** X12: dumps of different thresholds do not overwrite each other: with
    the default file names, a call at a threshold [t2] leaves the dump of
    an earlier call at another threshold [t1] in place (neither being 0,
    which stands for 40); each dump is what the filter returns at its
    threshold. *)
Theorem thresholds_keep_separate_dumps
    (df1 df2 filtered1 filtered2 : DataFrame) (t1 t2 : Z) (w : World) :
  t1 <> 0 -> t2 <> 0 -> t1 <> t2 ->
  process_recommendations df1 (Some t1) = Ok filtered1 ->
  process_recommendations df2 (Some t2) = Ok filtered2 ->
  let w1 := exec (process_and_save_data df1 (Some t1) None) w in
  let w2 := exec (process_and_save_data df2 (Some t2) None) w1 in
  above_path t1 w <> above_path t2 w
  /\ dumps w2 !! above_path t1 w = Some filtered1
  /\ dumps w2 !! above_path t2 w = Some filtered2.
Proof.
  intros H1 H2 Hne Hf1 Hf2 w1 w2.
  assert (Ht : forall t, t <> 0 -> or_int (Some t) CONFIG.DEFAULT_THRESHOLD = t).
  { intros t Hz. unfold or_int. by destruct t. }
  assert (Hpath : above_path t1 w <> above_path t2 w).
  { unfold above_path. intros Heq. apply Hne, str_of_int_inj.
    apply os_path_join_inj in Heq; [|reflexivity|reflexivity].
    do 2 apply app_inv_head in Heq. by apply app_inv_tail in Heq. }
  split; [done|].
  unfold w2, w1, exec. rewrite !process_and_save_data_run. cbv zeta.
  rewrite Hf1, Hf2, !Ht by done. cbn [snd dumps set_dumps data_dir].
  change (above_path t2 (set_dumps _ w)) with (above_path t2 w).
  split.
  - rewrite lookup_insert_ne by done. by rewrite lookup_insert_eq.
  - by rewrite lookup_insert_eq.
Qed.

Lemma thresholds_keep_separate_dumps_witness :
  let df := Table (listing_of_nrec <$> [utf8 "10"; utf8 "55"; utf8 "爆"]) in
  let w := world_of (response 200) in
  dumps (exec (process_and_save_data df (Some 100) None)
           (exec (process_and_save_data df (Some 50) None) w))
    !! above_path 50 w
  = Some (Table (listing_of_nrec <$> [utf8 "55"; utf8 "爆"])).
Proof.
  intros df w.
  pose (f1 := Table (listing_of_nrec <$> [utf8 "55"; utf8 "爆"])).
  pose (f2 := Table (listing_of_nrec <$> [utf8 "爆"])).
  assert (H1 : process_recommendations df (Some 50) = Ok f1) by (vm_compute; reflexivity).
  assert (H2 : process_recommendations df (Some 100) = Ok f2) by (vm_compute; reflexivity).
  exact (proj1 (proj2 (thresholds_keep_separate_dumps df df f1 f2 50 100 w
                         ltac:(lia) ltac:(lia) ltac:(lia) H1 H2))).
Defined.

(** X13: when the crawl raises, whatever the error, it ends the script at
    once: the script returns that error in the world the crawl left, so the
    records gathered before the error are dropped, and neither a dump nor
    a content table is written. *)
Theorem main_writes_nothing_on_error
    (decode : option str -> list N -> str) (html_parser : str -> list node)
    (w : World) (e : exn) :
  eval (crawl_posts decode html_parser 10) w = Raise e ->
  main decode html_parser w = (Raise e, exec (crawl_posts decode html_parser 10) w)
  /\ dumps (exec (main decode html_parser) w) = dumps w
  /\ files (exec (main decode html_parser) w) = files w.
Proof.
  intros Hraise.
  destruct (crawl_posts_exec decode html_parser 10 w) as (pages & Hexec).
  assert (Hmain : main decode html_parser w
                  = (Raise e, exec (crawl_posts decode html_parser 10) w)).
  { rewrite main_run. by rewrite Hraise. }
  split; [done|]. unfold exec at 1 2. rewrite Hmain. simpl.
  by rewrite Hexec.
Qed.

Lemma main_writes_nothing_on_error_witness :
  main (fun _ b => b) (fun _ => broken_page) (world_of (response 200))
  = (Raise (KeyError (utf8 "href")),
     set_requested [CONFIG.BOARD_URL; page_url 8] (world_of (response 200))).
Proof.
  refine (eq_trans
    (proj1 (main_writes_nothing_on_error (fun _ b => b) (fun _ => broken_page)
              (world_of (response 200)) (KeyError (utf8 "href"))
              ltac:(vm_compute; reflexivity))) _).
  vm_compute. reflexivity.
Defined.

(** X14: when the crawl gathers no record (the index is not resolved, or
    no page has an entry), the script writes the raw dump of the frame
    without columns and then fails in the filter with KeyError nrec; the
    content table is not touched. *)
Theorem main_fails_on_empty_crawl
    (decode : option str -> list N -> str) (html_parser : str -> list node)
    (w : World) :
  eval (crawl_posts decode html_parser 10) w = Ok NoColumns ->
  eval (main decode html_parser) w = Raise (KeyError (utf8 "nrec"))
  /\ dumps (exec (main decode html_parser) w) = <[raw_path w := NoColumns]> (dumps w)
  /\ files (exec (main decode html_parser) w) !! output_path None w
     = files w !! output_path None w.
Proof.
  intros Hempty. destruct (crawl_posts_exec decode html_parser 10 w) as (pages & Hexec).
  unfold eval, exec in *. rewrite main_run. unfold eval, exec.
  rewrite Hempty, Hexec. done.
Qed.

Lemma main_fails_on_empty_crawl_witness :
  eval (main (fun _ b => b) (fun _ => listing_page)) (world_of (response 404))
  = Raise (KeyError (utf8 "nrec")).
Proof.
  apply (proj1 (main_fails_on_empty_crawl (fun _ b => b) (fun _ => listing_page)
                  (world_of (response 404)) ltac:(vm_compute; reflexivity))).
Defined.

(** X15: when the crawl gathers records and the filter returns the frame
    [popular] for them at the default threshold, the script dumps the
    records raw, dumps [popular], and hands it to the persister: the
    listings it requests are those of [popular] whose link the content
    table, as the run can read it, did not hold, in order; the rows it
    stores are those of these listings whose append is accepted; each of
    them is a record of the crawl that the filter returned, and is well
    formed (its link starts with BASE_URL). *)
Theorem main_persists_popular
    (decode : option str -> list N -> str) (html_parser : str -> list node)
    (w : World) (rows popular : list Listing) :
  eval (crawl_posts decode html_parser 10) w = Ok (Table rows) ->
  process_recommendations (Table rows) None = Ok (Table popular) ->
  let path := output_path None w in
  let todo := filter (fun r => link r ∉ eval (load_existing_links path) w) popular in
  let w' := exec (main decode html_parser) w in
  dumps w'
  = <[above_path 40 w := Table popular]> (<[raw_path w := Table rows]> (dumps w))
  /\ requested w'
     = requested (exec (crawl_posts decode html_parser 10) w) ++ (link <$> todo)
  /\ table_rows path w'
     = table_rows path w
       ++ ((fun row => make_record row
                         (eval (get_structured_content decode html_parser (link row)) w))
             <$> accepted (write_errors w) todo)
  /\ sublist todo popular /\ sublist popular rows
  /\ Forall well_formed todo.
Proof.
  intros Hrows Hpop path todo w'.
  pose proof (crawl_posts_rows decode html_parser 10 w _ Hrows) as Hwf. simpl in Hwf.
  assert (Hsub : sublist popular rows).
  { rewrite process_recommendations_table in Hpop. injection Hpop as <-.
    apply sublist_filter. }
  destruct (crawl_posts_exec decode html_parser 10 w) as (pages & Hexec).
  unfold w', eval, exec in *. rewrite main_run. unfold eval, exec.
  rewrite Hrows, Hexec. cbv zeta. rewrite Hpop.
  set (w3 := set_dumps _ (set_dumps _ _)).
  pose proof (crawl_effect decode html_parser popular None w3) as Heff.
  cbv zeta in Heff. unfold exec in Heff.
  change (output_path None w3) with path in Heff.
  assert (Hlinks : eval (load_existing_links path) w3 = eval (load_existing_links path) w).
  { unfold eval. by rewrite !load_existing_links_run. }
  rewrite Hlinks in Heff. fold todo in Heff.
  destruct Heff as (Htable & Hreq & _ & Hdumps & _).
  split; [by rewrite Hdumps|]. split; [by rewrite Hreq|]. split.
  { rewrite Htable. f_equal. apply list_fmap_ext. intros _ r _. f_equal.
    by apply extract_http. }
  split; [apply sublist_filter|]. split; [exact Hsub|].
  apply Forall_forall. intros r [_ Hin]%list_elem_of_filter.
  apply (proj1 (Forall_forall _ _) Hwf). by apply (elem_of_sublist _ _ _ Hin).
Qed.

Lemma main_persists_popular_witness :
  let w := world_of (response 200) in
  length (table_rows (output_path None w)
            (exec (main (fun _ b => b) (fun _ => listing_page)) w))
  = 20%nat.
Proof.
  intros w.
  pose (rows := match eval (crawl_posts (fun _ b => b) (fun _ => listing_page) 10) w with
                | Ok (Table rows) => rows
                | _ => []
                end).
  pose (popular := match process_recommendations (Table rows) None with
                   | Ok (Table popular) => popular
                   | _ => []
                   end).
  refine (eq_trans
    (f_equal length
       (proj1 (proj2 (proj2
          (main_persists_popular (fun _ b => b) (fun _ => listing_page) w rows popular
             ltac:(vm_compute; reflexivity) ltac:(vm_compute; reflexivity)))))) _).
  vm_compute. reflexivity.
Defined.



(** The walk stops at the first page with a title anchor without link
    target: of three pages, one is requested. *)
Example crawl_posts_broken_page :
  crawl_posts (fun _ b => b) (fun _ => broken_page) 3 (world_of (response 200))
  = (Raise (KeyError (utf8 "href")),
     set_requested [CONFIG.BOARD_URL; page_url 8] (world_of (response 200))).
Proof. vm_compute. reflexivity. Qed.

(** X17: on the frame without columns the persister raises KeyError link
    at once, whatever the output file and the world: nothing is requested
    and nothing is written. *)
Theorem crawl_fails_without_columns
    (decode : option str -> list N -> str) (html_parser : str -> list node)
    (output_file : option str) (w : World) :
  crawl_ptt_post_content decode html_parser NoColumns output_file w
  = (Raise (KeyError (utf8 "link")), w)
  /\ crawl_ptt_post_content decode html_parser (DataFrame_of []) output_file w
     = (Raise (KeyError (utf8 "link")), w).
Proof. split; by rewrite crawl_run. Qed.

(** X18: on a content table that can be read, a run on listings whose
    links are read back as text (they start with http) requests exactly
    the links that the table does not hold: each such link is requested
    (once per listing that carries it), and no other. *)
Theorem crawl_requests_exactly_missing
    (decode : option str -> list N -> str) (html_parser : str -> list node)
    (rows : list Listing) (output_file : option str) (w : World) :
  readable (output_path output_file w) w ->
  Forall (fun r => text_link (link r) = true) rows ->
  let path := output_path output_file w in
  let missing := filter (fun r => link r ∉ links_of (table_rows path w)) rows in
  requested (exec (crawl_ptt_post_content decode html_parser (Table rows) output_file) w)
  = requested w ++ (link <$> missing)
  /\ forall r, r ∈ rows ->
       (link r ∈ (link <$> missing) <-> link r ∉ links_of (table_rows path w)).
Proof.
  intros Hread _ path missing. split.
  - unfold path in *. rewrite crawl_requests by done. f_equal. f_equal.
    apply list_filter_iff. intros r. by rewrite elem_of_list_to_set.
  - intros r Hr. split.
    + intros (r' & Heq & [Hnot _]%list_elem_of_filter)%list_elem_of_fmap.
      by rewrite Heq.
    + intros Hnot. apply list_elem_of_fmap. exists r. split; [done|].
      by apply list_elem_of_filter.
Qed.

Lemma crawl_requests_exactly_missing_witness :
  let data := [listing_at "/bbs/stock/M.1.html" "55";
               listing_at "/bbs/stock/M.2.html" "爆";
               listing_at "/bbs/stock/M.2.html" "爆"] in
  let w0 := world_of (response 200) in
  let w := set_files {[ output_path None w0
                        := Csv [bare_record (listing_at "/bbs/stock/M.1.html" "55")] ]} w0 in
  requested (exec (crawl_ptt_post_content (fun _ b => b) (fun _ => post_page sample_post)
                     (Table data) None) w)
  = [utf8 "https://www.ptt.cc/bbs/stock/M.2.html";
     utf8 "https://www.ptt.cc/bbs/stock/M.2.html"].
Proof.
  intros data w0 w.
  refine (eq_trans
    (proj1 (crawl_requests_exactly_missing (fun _ b => b) (fun _ => post_page sample_post)
              data None w ltac:(vm_compute; exact I) ltac:(repeat constructor))) _).
  vm_compute. reflexivity.
Defined.

(** X19: an index the resolver returns is at least 1, whatever the page
    says: the pattern reads digits only, without sign. *)
Theorem get_latest_index_at_least_1
    (decode : option str -> list N -> str) (html_parser : str -> list node)
    (board_url : option str) (w : World) (latest : Z) :
  eval (get_latest_index decode html_parser board_url) w = Ok (Some latest) ->
  1 <= latest.
Proof.
  rewrite get_latest_index_eval.
  destruct (fetched_page _ _ _ w) as [soup|]; [|done].
  destruct (select_one _ soup) as [prev|]; [|done].
  destruct (getitem prev _) as [href|e]; [|done].
  destruct (search_index href) as [group1|]; [|done].
  unfold int. destruct (int_max_str_digits <? length group1)%nat; [done|].
  intros [= <-]. pose proof (int_of_digits_nonneg group1). lia.
Qed.

Lemma get_latest_index_at_least_1_witness : 1 <= 124.
Proof.
  apply (get_latest_index_at_least_1 (fun _ b => b)
           (fun _ => index_page [("href", "/bbs/stock/index123.html")]%string) None
           (world_of (response 200)) 124).
  vm_compute. reflexivity.
Defined.

(** ** The two passes of the extractor, on any post *)

Section Passes.

(** The second pass drops the leading lines with a board or time marker,
    and nothing else. *)
Lemma clean_lines_drops (body : list str) :
  exists header,
    body = header ++ clean_lines body
    /\ Forall (fun l => has_marker l = true) header
    /\ match clean_lines body with [] => True | l :: _ => has_marker l = false end.
Proof.
  induction body as [|l body (header & Hbody & Hh & Hfirst)].
  - by exists [].
  - destruct (has_marker l) eqn:El.
    + assert (Hskip : clean_lines (l :: body) = clean_lines body).
      { unfold clean_lines. simpl. unfold has_marker in El. by rewrite El. }
      rewrite Hskip. exists (l :: header). split; [by rewrite Hbody at 1|].
      split; [by constructor|done].
    + assert (Hkeep : clean_lines (l :: body) = l :: body).
      { unfold clean_lines. simpl. unfold has_marker in El. rewrite El.
        by rewrite clean_started. }
      rewrite Hkeep. by exists [].
Qed.

Lemma last_with_cons (p : str -> bool) (l : str) (lines : list str) :
  last_with p (l :: lines)
  = match last_with p lines with
    | Some x => Some x
    | None => if p l then Some l else None
    end.
Proof.
  unfold last_with. rewrite filter_cons. destruct (p l) eqn:E.
  - rewrite decide_True by done. by rewrite last_cons.
  - rewrite decide_False by (by intros ?). by destruct (last _).
Qed.

(** The first pass keeps the title of the last line with the title marker,
    and the author of the last line with the author marker and without the
    title marker. *)
Lemma classify_title (lines : list str) :
  forall st : str * str * list str,
    (foldl classify_line st lines).1.1
    = match last_with (contains TITLE) lines with
      | Some l => strip (sub_marker TITLE l)
      | None => st.1.1
      end.
Proof.
  induction lines as [|l lines IH]; intros [[title source] body]; [done|].
  simpl. rewrite IH, last_with_cons.
  destruct (last_with (contains TITLE) lines); [done|].
  destruct (contains TITLE l); [done|]. by destruct (contains AUTHOR l).
Qed.

Lemma classify_source (lines : list str) :
  forall st : str * str * list str,
    (foldl classify_line st lines).1.2
    = match last_with (fun l => negb (contains TITLE l) && contains AUTHOR l) lines with
      | Some l => strip (sub_marker AUTHOR l)
      | None => st.1.2
      end.
Proof.
  induction lines as [|l lines IH]; intros [[title source] body]; [done|].
  simpl. rewrite IH, last_with_cons.
  destruct (last_with _ lines); [done|].
  destruct (contains TITLE l); [done|]. by destruct (contains AUTHOR l).
Qed.

End Passes.

(** X20: on every post that is fetched and has a content region, the
    content is made of lines of the region's text with neither the title
    nor the author marker (such a line is left out wherever it stands, also
    in the middle of the post): of these lines, the leading ones with a
    board or time marker are dropped and the rest, from the first line
    without such a marker, is joined by single newlines. *)
Theorem content_skips_marked_lines
    (decode : option str -> list N -> str) (html_parser : str -> list node)
    (url : str) (w : World) (soup : list node) (main : node) :
  fetched_page decode html_parser url w = Some soup ->
  select_one main_selector soup = Some main ->
  exists header kept,
    filter (fun l => contains TITLE l = false /\ contains AUTHOR l = false)
      (lines_of (stripped_region main))
    = header ++ kept
    /\ Forall (fun l => has_marker l = true) header
    /\ match kept with [] => True | l :: _ => has_marker l = false end
    /\ Forall (fun l => unmarked l /\ solid l) kept
    /\ s_content (eval (get_structured_content decode html_parser url) w)
       = Some (join NEWLINE kept).
Proof.
  intros Hpage Hmain. unfold eval.
  rewrite get_structured_content_run, Hpage, Hmain. simpl.
  destruct (clean_lines_drops (provisional_body main)) as (header & Hbody & Hh & Hfirst).
  exists header, (clean_lines (provisional_body main)).
  pose proof (provisional_body_solid main) as Hsolid.
  assert (Hprov : provisional_body main
                  = filter (fun l => contains TITLE l = false /\ contains AUTHOR l = false)
                      (lines_of (stripped_region main))).
  { unfold provisional_body. by rewrite classify_body. }
  assert (Hkept : Forall (fun l => unmarked l /\ solid l)
                    (clean_lines (provisional_body main))).
  { apply Forall_forall. intros l Hl.
    assert (Hin : l ∈ provisional_body main).
    { rewrite Hbody. apply elem_of_app. by right. }
    split; [|by apply (proj1 (Forall_forall _ _) Hsolid)].
    rewrite Hprov in Hin. by apply list_elem_of_filter in Hin as [? _]. }
  split; [by rewrite <- Hprov|]. split; [done|]. split; [done|]. split; [done|].
  f_equal. apply strip_join_solid.
  eapply Forall_impl; [exact Hkept|]. by intros l [_ ?].
Qed.

Lemma content_skips_marked_lines_witness :
  exists header kept,
    filter (fun l => contains TITLE l = false /\ contains AUTHOR l = false)
      (lines_of (stripped_region (tag "div" [("id", "main-content")]%string titled_post)))
    = header ++ kept
    /\ Forall (fun l => has_marker l = true) header
    /\ match kept with [] => True | l :: _ => has_marker l = false end
    /\ Forall (fun l => unmarked l /\ solid l) kept
    /\ s_content (eval (get_structured_content (fun _ b => b)
                          (fun _ => post_page titled_post)
                          (utf8 "https://www.ptt.cc/bbs/stock/M.1.html"))
                    (world_of (response 200)))
       = Some (join NEWLINE kept).
Proof.
  apply (content_skips_marked_lines (fun _ b => b) (fun _ => post_page titled_post)
           (utf8 "https://www.ptt.cc/bbs/stock/M.1.html") (world_of (response 200))
           (post_page titled_post)).
  - reflexivity.
  - vm_compute. reflexivity.
Defined.

(** The post of the witness: the marked lines are gone from the content,
    the second title wins. *)
Example titled_post_extracted :
  let result := eval (get_structured_content (fun _ b => b)
                        (fun _ => post_page titled_post)
                        (utf8 "https://www.ptt.cc/bbs/stock/M.1.html"))
                  (world_of (response 200)) in
  s_content result = Some (join NEWLINE [utf8 "body line"; utf8 "last line"])
  /\ s_title result = Some (utf8 "second")
  /\ s_source result = Some (utf8 "someone (nick)").
Proof. repeat split; vm_compute; reflexivity. Qed.

(** X21: on every post that is fetched and has a content region, the title
    is read from the last line that carries the title marker, and the
    source from the last line that carries the author marker and not the
    title marker; each is empty when there is no such line. *)
Theorem title_of_last_marker_line
    (decode : option str -> list N -> str) (html_parser : str -> list node)
    (url : str) (w : World) (soup : list node) (main : node) :
  fetched_page decode html_parser url w = Some soup ->
  select_one main_selector soup = Some main ->
  let lines := lines_of (stripped_region main) in
  let result := eval (get_structured_content decode html_parser url) w in
  s_title result
  = Some (match last_with (contains TITLE) lines with
          | Some l => strip (sub_marker TITLE l)
          | None => []
          end)
  /\ s_source result
     = Some (match last_with (fun l => negb (contains TITLE l) && contains AUTHOR l)
                     lines with
             | Some l => strip (sub_marker AUTHOR l)
             | None => []
             end).
Proof.
  intros Hpage Hmain lines result. unfold result, eval.
  rewrite get_structured_content_run, Hpage, Hmain. simpl.
  fold lines. by rewrite classify_title, classify_source.
Qed.

Lemma title_of_last_marker_line_witness :
  s_title (eval (get_structured_content (fun _ b => b)
                   (fun _ => post_page titled_post)
                   (utf8 "https://www.ptt.cc/bbs/stock/M.1.html"))
             (world_of (response 200)))
  = Some (utf8 "second").
Proof.
  refine (eq_trans
    (proj1 (title_of_last_marker_line (fun _ b => b) (fun _ => post_page titled_post)
              (utf8 "https://www.ptt.cc/bbs/stock/M.1.html") (world_of (response 200))
              (post_page titled_post)
              (tag "div" [("id", "main-content")]%string titled_post)
              ltac:(reflexivity) ltac:(vm_compute; reflexivity))) _).
  vm_compute. reflexivity.
Defined.

(** ** The script, run again *)

Section Rerun.

Variable decode : option str -> list N -> str.
Variable html_parser : str -> list node.








End Rerun.


